(** * Verification of [scripts/export-events.mjs]

    A shallow embedding of the Airtable-to-[events.json] export script and
    the properties of its pipeline: configuration check, paginated fetch,
    record transformation, date-window filter and file write.

    Conventions of the embedding.
    - A JavaScript string is a [string]: the bytes of its UTF-8 encoding.
      Every string the script compares ([YYYY-MM-DD] dates) is ASCII, where
      byte order and UTF-16 code-unit order coincide.
    - A property read that may yield [undefined] is an [option string];
      field bags and [process.env] are finite maps keyed by name. Field
      values are strings, as Airtable returns them for text, select, URL
      and date-time columns.
    - A [Date] is its time value: [Some t] with [t] in milliseconds since
      the epoch, or [None] for the time value NaN (an invalid date).
    - The host functions of the runtime ([Date], [Intl], [fetch], [fs],
      [process]) are modelled next to the code that calls them. Where the
      engine's behaviour is modelled for a fragment of its inputs only
      (reading a date string, lowercasing text outside ASCII), the rest is
      a parameter of the embedding, a [Runtime], and every property holds
      for every runtime. *)

From Stdlib Require Import ZArith Lia Bool Ascii String.
From stdpp Require Import gmap strings list sorting.

Local Open Scope string_scope.
Local Open Scope list_scope.
Local Open Scope stdpp_scope.
Local Open Scope Z_scope.

(** ** The proleptic Gregorian calendar (ECMAScript's day arithmetic) *)

Module Calendar.

Definition msPerSecond : Z := 1000.
Definition msPerMinute : Z := 60000.
Definition msPerHour : Z := 3600000.
Definition msPerDay : Z := 86400000.

(** Day number (days since 1970-01-01) of the civil date [y]-[m]-[d], with
    [m] in 1..12. *)
Definition days_from_civil (y m d : Z) : Z :=
  let y' := if m <=? 2 then y - 1 else y in
  let era := y' / 400 in
  let yoe := y' - era * 400 in
  let mp := if m >? 2 then m - 3 else m + 9 in
  let doy := (153 * mp + 2) / 5 + d - 1 in
  let doe := yoe * 365 + yoe / 4 - yoe / 100 + doy in
  era * 146097 + doe - 719468.

(** Civil date [(year, month 1..12, day 1..31)] of a day number. *)
Definition civil_from_days (days : Z) : Z * Z * Z :=
  let z := days + 719468 in
  let era := z / 146097 in
  let doe := z - era * 146097 in
  let yoe := (doe - doe / 1460 + doe / 36524 - doe / 146096) / 365 in
  let doy := doe - (365 * yoe + yoe / 4 - yoe / 100) in
  let mp := (5 * doy + 2) / 153 in
  let d := doy - (153 * mp + 2) / 5 + 1 in
  let m := if mp <? 10 then mp + 3 else mp - 9 in
  let y := yoe + era * 400 in
  (if m <=? 2 then y + 1 else y, m, d).

(** ECMAScript [Day(t)] and [TimeWithinDay(t)]. *)
Definition Day (t : Z) : Z := t / msPerDay.
Definition TimeWithinDay (t : Z) : Z := t mod msPerDay.

(** ECMAScript [WeekDay(t)] on day numbers: 0 is Sunday. *)
Definition WeekDay (days : Z) : Z := (days + 4) mod 7.

Definition YearFromTime (t : Z) : Z := fst (fst (civil_from_days (Day t))).
(** ECMAScript months are 0-based. *)
Definition MonthFromTime (t : Z) : Z := snd (fst (civil_from_days (Day t))) - 1.
Definition DateFromTime (t : Z) : Z := snd (civil_from_days (Day t)).
Definition HourFromTime (t : Z) : Z := (t / msPerHour) mod 24.
Definition MinFromTime (t : Z) : Z := (t / msPerMinute) mod 60.

(** ECMAScript [MakeDay(year, month, date)]: [month] is 0-based and may lie
    outside 0..11, in which case it carries into the year. *)
Definition MakeDay (year month date : Z) : Z :=
  let ym := year + month / 12 in
  let mn := month mod 12 in
  days_from_civil ym (mn + 1) 1 + date - 1.

Definition MakeTime (hour min sec ms : Z) : Z :=
  hour * msPerHour + min * msPerMinute + sec * msPerSecond + ms.

Definition MakeDate (day time : Z) : Z := day * msPerDay + time.

(** ECMAScript [TimeClip]: time values beyond 8.64e15 ms are NaN. *)
Definition TimeClip (t : Z) : option Z :=
  if Z.abs t <=? 8640000000000000 then Some t else None.

Definition days_in_month (y m : Z) : Z :=
  days_from_civil (if m =? 12 then y + 1 else y) (if m =? 12 then 1 else m + 1) 1
  - days_from_civil y m 1.

End Calendar.

(** ** Strings of the runtime *)

Module Str.

Definition is_digit (c : ascii) : bool :=
  let n := nat_of_ascii c in (48 <=? n)%nat && (n <=? 57)%nat.

Definition digit_val (c : ascii) : Z := Z.of_nat (nat_of_ascii c) - 48.

(** The decimal digit character of [n] in 0..9. *)
Definition digit_char (n : Z) : ascii := ascii_of_nat (48 + Z.to_nat n).

(** Value of a run of decimal digits; [None] if another character occurs. *)
Fixpoint number (cs : list ascii) (acc : Z) : option Z :=
  match cs with
  | [] => Some acc
  | c :: cs' => if is_digit c then number cs' (10 * acc + digit_val c) else None
  end.

(** Two-digit rendering, zero padded ([2-digit] fields of [Intl]). *)
Definition pad2 (n : Z) : string :=
  String (digit_char (n / 10 mod 10)) (String (digit_char (n mod 10)) EmptyString).

Fixpoint decimal_go (fuel : nat) (n : Z) (acc : string) : string :=
  let acc' := String (digit_char (n mod 10)) acc in
  match fuel with
  | O => acc'
  | S fuel' => if n / 10 =? 0 then acc' else decimal_go fuel' (n / 10) acc'
  end.

(** Decimal rendering of a non-negative integer, without padding (what
    template literals and numeric [Intl] fields print). *)
Definition decimal (n : Z) : string := decimal_go (Z.to_nat (Z.log2 n)) n EmptyString.

(** Lowercasing of an ASCII character: the letters A..Z move to a..z. *)
Definition lower_ascii (c : ascii) : ascii :=
  let n := nat_of_ascii c in
  if (65 <=? n)%nat && (n <=? 90)%nat then ascii_of_nat (n + 32) else c.

(** [String.prototype.toLowerCase] on a string of ASCII characters. *)
Fixpoint ascii_lower (s : string) : string :=
  match s with
  | EmptyString => EmptyString
  | String c s' => String (lower_ascii c) (ascii_lower s')
  end.

Definition is_upper (c : ascii) : bool :=
  let n := nat_of_ascii c in (65 <=? n)%nat && (n <=? 90)%nat.

(** The string holds none of the letters A..Z. *)
Fixpoint has_no_uppercase (s : string) : bool :=
  match s with
  | EmptyString => true
  | String c s' => negb (is_upper c) && has_no_uppercase s'
  end.

(** Every character of the string is ASCII (below U+0080). *)
Fixpoint is_ascii (s : string) : bool :=
  match s with
  | EmptyString => true
  | String c s' => (nat_of_ascii c <? 128)%nat && is_ascii s'
  end.

(** The relational operator [>=] on two strings: code-unit lexicographic
    order. *)
Definition ge (a b : string) : bool :=
  match String.compare a b with
  | Lt => false
  | _ => true
  end.

(** The double-quote character. *)
Definition dquote : ascii := Eval cbv in ascii_of_nat 34.

(** U+2013 EN DASH, as its UTF-8 bytes E2 80 93. *)
Definition en_dash : string :=
  Eval cbv in string_of_list_ascii (map ascii_of_nat [226; 128; 147]%nat).

End Str.

(** ** JavaScript values the script branches on *)

Module Js.

(** [ToBoolean] of a value that is [undefined] or a string: [undefined] and
    the empty string are falsy. *)
Definition truthy (v : option string) : bool :=
  match v with
  | None => false
  | Some s => negb (String.eqb s "")
  end.

(** [a || b] where [b] is a string. *)
Definition or_default (a : option string) (b : string) : string :=
  match a with
  | Some s => if String.eqb s "" then b else s
  | None => b
  end.

(** [a || b] where [b] may itself be [undefined]. *)
Definition or_else (a b : option string) : option string :=
  if truthy a then a else b.

End Js.

(** ** The [Date] and [Intl] host model *)

Module Host.
Import Calendar.

(** A [Date] object: its time value, [None] for NaN. *)
Definition Date : Type := option Z.

(** What the engine does outside the fragment modelled below:
    [Date_parse_other] is [new Date(s)] for a non-empty string [s] that is
    not of the form read by [parse_iso] (ECMAScript leaves part of this to
    the implementation); [toLowerCase_other] is
    [String.prototype.toLowerCase] on a string with a character outside
    ASCII. *)
Record Runtime := {
  Date_parse_other : string -> Date;
  toLowerCase_other : string -> string;
}.

(** [s.toLowerCase()]. *)
Definition toLowerCase (rt : Runtime) (s : string) : string :=
  if Str.is_ascii s then Str.ascii_lower s else toLowerCase_other rt s.

(** The ECMAScript date-time string format in the shape Airtable emits for
    date-time fields, [YYYY-MM-DDTHH:mm:ss.sssZ], with a day that exists in
    its month: [Some t] is the instant such a string denotes, [None] says
    that the string is not of this form. *)
Definition parse_iso (s : string) : Date :=
  match list_ascii_of_string s with
  | [y1; y2; y3; y4; c1; m1; m2; c2; d1; d2; c3;
     h1; h2; c4; n1; n2; c5; s1; s2; c6; f1; f2; f3; c7] =>
      if Ascii.eqb c1 "-" && Ascii.eqb c2 "-" && Ascii.eqb c3 "T"
         && Ascii.eqb c4 ":" && Ascii.eqb c5 ":" && Ascii.eqb c6 "."
         && Ascii.eqb c7 "Z"
      then
        match Str.number [y1; y2; y3; y4] 0, Str.number [m1; m2] 0,
              Str.number [d1; d2] 0, Str.number [h1; h2] 0,
              Str.number [n1; n2] 0, Str.number [s1; s2] 0,
              Str.number [f1; f2; f3] 0 with
        | Some y, Some m, Some d, Some h, Some n, Some sec, Some ms =>
            if (1 <=? m) && (m <=? 12) && (1 <=? d) && (d <=? days_in_month y m)
               && (h <=? 23) && (n <=? 59) && (sec <=? 59)
            then TimeClip (MakeDate (MakeDay y (m - 1) d) (MakeTime h n sec ms))
            else None
        | _, _, _, _, _, _, _ => None
        end
      else None
  | _ => None
  end.

(** [new Date(value)] for a value that is [undefined] or a string:
    [undefined] and the empty string give an invalid date, a string of the
    form above its instant, and any other string what the engine makes of
    it. *)
Definition new_Date_value (rt : Runtime) (v : option string) : Date :=
  match v with
  | None => None
  | Some s =>
      if String.eqb s "" then None
      else
        match parse_iso s with
        | Some t => Some t
        | None => Date_parse_other rt s
        end
  end.

(** The time zone [Europe/London] of the tz database, for instants from
    18 February 1968 on (earlier instants are outside the model):
    - until 02:00 UTC on 31 October 1971, British Standard Time, UTC+1
      throughout;
    - 1972..1980, summer time from 02:00 UTC on the first Sunday on or
      after 16 March to 02:00 UTC on the first Sunday on or after
      23 October;
    - from 1981, summer time starts at 01:00 UTC on the last Sunday of
      March; it ends at 01:00 UTC on the first Sunday on or after 23 October
      (1981..1989), on or after 22 October (1990..1995), and on the last
      Sunday of October (from 1996). *)
Definition last_sunday_of (y m : Z) : Z :=
  let d := days_from_civil y m 31 in d - WeekDay d.

Definition sunday_on_or_after (y m d : Z) : Z :=
  let n := days_from_civil y m d in n + (7 - WeekDay n) mod 7.

Definition bst_start (y : Z) : Z := MakeDate (last_sunday_of y 3) msPerHour.
Definition bst_end (y : Z) : Z := MakeDate (last_sunday_of y 10) msPerHour.

Definition british_standard_time_end : Z :=
  MakeDate (days_from_civil 1971 10 31) (2 * msPerHour).

Definition summer_start (y : Z) : Z :=
  if y <=? 1980 then MakeDate (sunday_on_or_after y 3 16) (2 * msPerHour)
  else bst_start y.

Definition summer_end (y : Z) : Z :=
  if y <=? 1980 then MakeDate (sunday_on_or_after y 10 23) (2 * msPerHour)
  else if y <=? 1989 then MakeDate (sunday_on_or_after y 10 23) msPerHour
  else if y <=? 1995 then MakeDate (sunday_on_or_after y 10 22) msPerHour
  else bst_end y.

(** Offset of London wall-clock time from UTC at the instant [t], in ms. *)
Definition london_offset (t : Z) : Z :=
  if t <? british_standard_time_end then msPerHour
  else
    let y := YearFromTime t in
    if (summer_start y <=? t) && (t <? summer_end y) then msPerHour else 0.

(** London wall-clock time of the instant [t], as a time value. *)
Definition london_time (t : Z) : Z := t + london_offset t.

(** Year as the pattern letter [y] prints it: the year of the era. *)
Definition year_of_era (y : Z) : Z := if y >? 0 then y else 1 - y.

(** The [en-CA] numeric date pattern [y-MM-dd] on a civil date. *)
Definition format_ymd (y m d : Z) : string :=
  Str.decimal (year_of_era y) +:+ "-" +:+ Str.pad2 m +:+ "-" +:+ Str.pad2 d.

(** [date.toLocaleDateString('en-CA', { timeZone: 'Europe/London' })]. *)
Definition toLocaleDateString_enCA_London (date : Date) : string :=
  match date with
  | None => "Invalid Date"
  | Some t =>
      let '(y, m, d) := civil_from_days (Day (london_time t)) in
      format_ymd y m d
  end.

(** [date.toLocaleTimeString('en-GB', { hour: '2-digit', minute: '2-digit',
    hour12: false, timeZone: 'Europe/London' })]. *)
Definition toLocaleTimeString_enGB_London (date : Date) : string :=
  match date with
  | None => "Invalid Date"
  | Some t =>
      let lt := london_time t in
      Str.pad2 (HourFromTime lt) +:+ ":" +:+ Str.pad2 (MinFromTime lt)
  end.

(** The process's own time zone, ECMAScript's [LocalTZA]: the offset from
    UTC, in ms, in force at a UTC instant ([LocalTZA(t, true)]) and the
    offset by which a local time is read ([LocalTZA(t, false)]; at a
    transition, the offset before it). *)
Record TimeZone := {
  offset_at_utc : Z -> Z;
  offset_at_local : Z -> Z;
}.

(** A zone with one offset throughout (0 on a runner whose zone is UTC). An
    offset stands for its zone. *)
Definition fixed_offset (tza : Z) : TimeZone :=
  {| offset_at_utc := fun _ => tza; offset_at_local := fun _ => tza |}.
Coercion fixed_offset : Z >-> TimeZone.

(** [Europe/London] as the process's zone. *)
Definition london_zone : TimeZone :=
  {| offset_at_utc := london_offset;
     offset_at_local := fun t => london_offset (t - msPerHour) |}.

Definition LocalTime (tza : TimeZone) (t : Z) : Z := t + offset_at_utc tza t.
Definition UTC (tza : TimeZone) (t : Z) : Z := t - offset_at_local tza t.

Definition getFullYear (tza : TimeZone) (t : Z) : Z := YearFromTime (LocalTime tza t).
Definition getMonth (tza : TimeZone) (t : Z) : Z := MonthFromTime (LocalTime tza t).

(** [new Date(year, month, date)]: the local midnight of that civil day. *)
Definition new_Date_ymd (tza : TimeZone) (year month date : Z) : Date :=
  let yr := if (0 <=? year) && (year <=? 99) then 1900 + year else year in
  TimeClip (UTC tza (MakeDate (MakeDay yr month date) (MakeTime 0 0 0 0))).

End Host.

(** ** The script *)

Module Script.
Import Calendar Host.

(** *** Data *)

(** A remote record: an identifier plus a bag of named fields. *)
Record AirtableRecord := {
  id : string;
  fields : gmap string string;
}.

(** An output event. *)
Record Event := {
  date : string;
  title : string;
  venue : string;
  time : string;
  type : string;
  url : string;
  description : string;
}.

(** The object handed to [JSON.stringify]. [lastUpdated] is kept as the
    instant that [toISOString] renders. *)
Record Envelope := {
  lastUpdated : Z;
  events : list Event;
}.

(** Contents of a file: arbitrary text, or the text that
    [JSON.stringify(output, null, 2)] yields for an envelope. *)
Inductive FileContent :=
  | Text (s : string)
  | JsonText (output : Envelope).

Inductive JsError :=
  | Error (message : string).

(** What the file system does with the run's [writeFileSync]: it writes the
    file, or it throws and leaves the file as [remains] (as it was, truncated
    or partly written). *)
Inductive WriteResult :=
  | Written
  | WriteFails (e : JsError) (remains : option FileContent).

(** One [console.error] call: its arguments in order. *)
Inductive LogArg :=
  | LogString (s : string)
  | LogError (e : JsError).

(** A value or a thrown exception. *)
Inductive Completion (A : Type) :=
  | Normal (a : A)
  | Throw (e : JsError).
Arguments Normal {A} a.
Arguments Throw {A} e.

(** The request the fetcher sends: the URL's base identifier and table, its
    query parameters, and the authorization header. *)
Record Request := {
  req_base : string;
  req_table : string;
  req_filterByFormula : string;
  req_sort_field : string;
  req_sort_direction : string;
  req_offset : option string;
  req_authorization : string;
}.

(** A response: the HTTP status and the parsed JSON body's [records] and
    [offset]. The model covers exchanges in which [fetch] resolves with a
    response and a successful response has a JSON body with a [records]
    list; a rejected [fetch] or an unparsable body is outside it. *)
Record Response := {
  status : Z;
  records : list AirtableRecord;
  offset : option string;
}.

(** [response.ok]: the status is in the range 200..299. *)
Definition ok (r : Response) : bool := (200 <=? status r) && (status r <=? 299).

Definition TABLE_NAME : string := "Events".

(** *** Record transformer *)

(** The text between the two placeholders of the template literal that
    [formatTime] returns. In the source file it is the three characters
    U+00E2 U+20AC U+201C (UTF-8 bytes C3 A2 E2 82 AC E2 80 9C). *)
Definition time_range_separator : string :=
  Eval cbv in
    string_of_list_ascii (map ascii_of_nat [195; 162; 226; 130; 172; 226; 128; 156]%nat).

Definition formatTime (rt : Runtime) (startISO endISO : option string) : string :=
  let start := new_Date_value rt startISO in
  let startTime := toLocaleTimeString_enGB_London start in
  if negb (Js.truthy endISO) then startTime
  else
    let end_ := new_Date_value rt endISO in
    let endTime := toLocaleTimeString_enGB_London end_ in
    startTime +:+ time_range_separator +:+ endTime.

Definition formatDate (rt : Runtime) (isoString : option string) : string :=
  let date := new_Date_value rt isoString in
  toLocaleDateString_enCA_London date.

Definition transformEvent (rt : Runtime) (record : AirtableRecord) : Event :=
  let fields := fields record in
  {| date := formatDate rt (fields !! "Start");
     title := Js.or_default (fields !! "Title") "";
     venue := Js.or_default (fields !! "Venue") "";
     time := formatTime rt (fields !! "Start") (fields !! "End");
     type := toLowerCase rt (Js.or_default (fields !! "Type") "show");
     url := Js.or_default (Js.or_else (fields !! "Tickets URL") (fields !! "Event URL")) "";
     description := "" |}.

(** *** Date-window filter *)

(** The threshold of [main]: [new Date(now.getFullYear(), now.getMonth() - 1, 1)]
    rendered by [toLocaleDateString('en-CA', { timeZone: 'Europe/London' })].
    [tza] is the process's own time zone, [now] the instant [new Date()]
    returned. *)
Definition prevMonthStart (tza : TimeZone) (now : Z) : string :=
  toLocaleDateString_enCA_London
    (new_Date_ymd tza (getFullYear tza now) (getMonth tza now - 1) 1).

(** [events.filter((e) => e.date >= prevMonthStart)]. *)
Definition recentAndFutureEvents (threshold : string) (events : list Event) : list Event :=
  filter (fun e => Is_true (Str.ge (date e) threshold)) events.

(** *** Paginated fetcher, main and the top level *)

Section Process.

(** The remote endpoint: a state and the response it gives to a request. *)
Variable Server : Type.
Variable respond : Server -> Request -> Response * Server.

(** The engine's behaviour outside the modelled fragment. *)
Variable rt : Runtime.

(** The network as the process sees it: the endpoint and the log of the
    requests sent so far. *)
Record Network := {
  server : Server;
  sent : list Request;
}.

(** What the process can read and change: the environment, its own time
    zone ([tza]), the instants that [new Date()] returns for the threshold
    ([now]) and for [lastUpdated] ([write_time]), the network, the file
    [events.json], what the file system does with the write of this run
    ([write_result]) and the error stream. *)
Record World := {
  env : gmap string string;
  tza : TimeZone;
  now : Z;
  write_time : Z;
  network : Network;
  events_json : option FileContent;
  write_result : WriteResult;
  stderr : list (list LogArg);
}.

(** [await fetch(url, { headers })]. *)
Definition fetch (net : Network) (req : Request) : Response * Network :=
  let '(response, server') := respond (server net) req in
  (response, {| server := server'; sent := sent net ++ [req] |}).

Definition request (base_id api_key : string) (offset : option string) : Request :=
  {| req_base := base_id;
     req_table := TABLE_NAME;
     req_filterByFormula :=
       "{Status} = " +:+ String Str.dquote ("Approved" +:+ String Str.dquote "");
     req_sort_field := "Start";
     req_sort_direction := "asc";
     req_offset := if Js.truthy offset then offset else None;
     req_authorization := "Bearer " +:+ api_key |}.

(** The [do ... while (offset)] loop of [fetchApprovedEvents]; one unit of
    [fuel] per request. [None] when the fuel runs out before the loop ends. *)
Fixpoint fetch_loop (fuel : nat) (base_id api_key : string) (net : Network)
    (events : list AirtableRecord) (offset : option string)
    : option (Completion (list AirtableRecord) * Network) :=
  match fuel with
  | O => None
  | S fuel' =>
      let '(response, net') := fetch net (request base_id api_key offset) in
      if negb (ok response) then
        Some (Throw (Error ("Airtable API error: " +:+ Str.decimal (status response))), net')
      else
        let events' := events ++ records response in
        let offset' := Script.offset response in
        if Js.truthy offset' then fetch_loop fuel' base_id api_key net' events' offset'
        else Some (Normal events', net')
  end.

(** The requests the loop sends while it receives [pages], starting with the
    continuation token [offset]. *)
Fixpoint requests_sent (base_id api_key : string) (offset : option string)
    (pages : list Response) : list Request :=
  match pages with
  | [] => []
  | r :: rest =>
      request base_id api_key offset :: requests_sent base_id api_key (Script.offset r) rest
  end.

(** [pages_served base_id api_key st off pages st' off']: from endpoint state
    [st] and continuation token [off], the loop's requests are answered by
    the successful responses [pages], each carrying a continuation token;
    the endpoint is then in state [st'] and the loop holds the token [off']. *)
Inductive pages_served (base_id api_key : string)
    : Server -> option string -> list Response -> Server -> option string -> Prop :=
  | served_none st off : pages_served base_id api_key st off [] st off
  | served_page st off r st1 rest st' off' :
      respond st (request base_id api_key off) = (r, st1) ->
      ok r = true ->
      Js.truthy (Script.offset r) = true ->
      pages_served base_id api_key st1 (Script.offset r) rest st' off' ->
      pages_served base_id api_key st off (r :: rest) st' off'.

Definition fetchApprovedEvents (fuel : nat) (base_id api_key : string) (net : Network)
    : option (Completion (list AirtableRecord) * Network) :=
  fetch_loop fuel base_id api_key net [] None.

Definition set_network (w : World) (net : Network) : World :=
  {| env := env w; tza := tza w; now := now w; write_time := write_time w;
     network := net; events_json := events_json w;
     write_result := write_result w; stderr := stderr w |}.

Definition set_events_json (w : World) (file : option FileContent) : World :=
  {| env := env w; tza := tza w; now := now w; write_time := write_time w;
     network := network w; events_json := file;
     write_result := write_result w; stderr := stderr w |}.

(** [fs.writeFileSync('events.json', content)]: the file holds the content,
    or the call throws and the file is as the file system left it. *)
Definition writeFileSync (w : World) (content : FileContent) : Completion unit * World :=
  match write_result w with
  | Written => (Normal tt, set_events_json w (Some content))
  | WriteFails e remains => (Throw e, set_events_json w remains)
  end.

Definition console_error (w : World) (args : list LogArg) : World :=
  {| env := env w; tza := tza w; now := now w; write_time := write_time w;
     network := network w; events_json := events_json w;
     write_result := write_result w; stderr := stderr w ++ [args] |}.

(** [main]. The [console.log] lines are not part of the model. *)
Definition main (fuel : nat) (base_id api_key : string) (w : World)
    : option (Completion unit * World) :=
  match fetchApprovedEvents fuel base_id api_key (network w) with
  | None => None
  | Some (Throw e, net') => Some (Throw e, set_network w net')
  | Some (Normal records, net') =>
      let w' := set_network w net' in
      let events := map (transformEvent rt) records in
      let prevMonthStart := prevMonthStart (tza w') (now w') in
      let recentAndFutureEvents := recentAndFutureEvents prevMonthStart events in
      let output := {| lastUpdated := write_time w'; events := recentAndFutureEvents |} in
      Some (writeFileSync w' (JsonText output))
  end.

(** A value inside a template literal. *)
Definition template (v : option string) : string :=
  match v with
  | Some s => s
  | None => "undefined"
  end.

(** The module's top level: the configuration check, then
    [main().catch(...)]. The result is the exit status and the world the
    process leaves behind. *)
Definition script (fuel : nat) (w : World) : option (Z * World) :=
  let AIRTABLE_API_KEY := env w !! "AIRTABLE_API_KEY" in
  let AIRTABLE_BASE_ID := env w !! "AIRTABLE_BASE_ID" in
  if negb (Js.truthy AIRTABLE_API_KEY) || negb (Js.truthy AIRTABLE_BASE_ID) then
    Some (1, console_error w [LogString "Missing AIRTABLE_API_KEY or AIRTABLE_BASE_ID"])
  else
    match main fuel (template AIRTABLE_BASE_ID) (template AIRTABLE_API_KEY) w with
    | None => None
    | Some (Normal _, w') => Some (0, w')
    | Some (Throw err, w') =>
        Some (1, console_error w' [LogString "Export failed:"; LogError err])
    end.

End Process.

Arguments server {Server} _.
Arguments sent {Server} _.
Arguments env {Server} _.
Arguments tza {Server} _.
Arguments now {Server} _.
Arguments write_time {Server} _.
Arguments network {Server} _.
Arguments events_json {Server} _.
Arguments write_result {Server} _.
Arguments stderr {Server} _.

End Script.

(** ** The threshold as the specification words it *)

(** Following the specification's words: the first calendar day of the
    month preceding the current month, both taken in [Europe/London], as
    [YYYY-MM-DD]. *)
Definition london_prev_month_start (now : Z) : string :=
  let '(y, m, _) := Calendar.civil_from_days (Calendar.Day (Host.london_time now)) in
  if m =? 1 then Host.format_ymd (y - 1) 12 1 else Host.format_ymd y (m - 1) 1.

(** What the code's threshold comes to on a runner whose zone is UTC: the
    first day of the month preceding the current month, both taken in UTC. *)
Definition utc_prev_month_start (now : Z) : string :=
  let '(y, m, _) := Calendar.civil_from_days (Calendar.Day now) in
  if m =? 1 then Host.format_ymd (y - 1) 12 1 else Host.format_ymd y (m - 1) 1.

(** ** Checking the calendar on the years 1970 to 2099 *)

Module CalendarCheck.
Import Calendar.

(** [f] holds on the [n] integers from [z] on. *)
Fixpoint all_from (f : Z -> bool) (n : nat) (z : Z) : bool :=
  match n with
  | O => true
  | S n' => f z && all_from f n' (z + 1)
  end.

(** The civil date of day [d] is a date of the years 1970..2099 and maps
    back to [d]. *)
Definition day_ok (d : Z) : bool :=
  let '(y, m, dd) := civil_from_days d in
  (1970 <=? y) && (y <=? 2099) && (1 <=? m) && (m <=? 12)
  && (1 <=? dd) && (dd <=? days_in_month y m)
  && (days_from_civil y m dd =? d).

(** The first day of month [m] of year [y] maps to a day number that maps
    back to it. *)
Definition month_ok (y m : Z) : bool :=
  let d := days_from_civil y m 1 in
  let '(y', m', dd') := civil_from_days d in
  (y' =? y) && (m' =? m) && (dd' =? 1) && (-365 <=? d) && (d <? 47482).

Definition year_ok (y : Z) : bool := all_from (month_ok y) 12 1.

(** Day number of 2100-01-01, and its time value. *)
Definition days_until_2100 : nat := Z.to_nat 47482.
Definition start_of_2100 : Z := 4102444800000.

End CalendarCheck.

(** Events in ascending date order. *)
Definition date_ascending (a b : Script.Event) : Prop :=
  Is_true (Str.ge (Script.date b) (Script.date a)).

(** ** Sample data *)

Module Sample.
Import Script.

Definition record_with (fs : gmap string string) : AirtableRecord :=
  {| id := "rec0"; fields := fs |}.

Definition event_on (d : string) : Event :=
  {| date := d; title := ""; venue := ""; time := "19:30"; type := "show";
     url := ""; description := "" |}.

(** The record of the specification's round-trip property. *)
Definition evening_show : AirtableRecord :=
  record_with {[ "Start" := "2024-03-15T19:30:00.000Z";
                 "End" := "2024-03-15T21:00:00.000Z" ]}.

Definition summer_jam : AirtableRecord :=
  record_with {[ "Start" := "2024-07-01T18:00:00.000Z"; "Title" := "Jam";
                 "Type" := "Workshop"; "Tickets URL" := "https://tickets.example/jam";
                 "Event URL" := "https://events.example/jam" ]}.

Definition empty_type : AirtableRecord :=
  record_with {[ "Start" := "2024-03-15T19:30:00.000Z"; "Type" := "" ]}.

(** A [Type] outside ASCII: CAF and U+00C9 (UTF-8 bytes C3 89). *)
Definition cafe_upper : string :=
  Eval cbv in "CAF" +:+ string_of_list_ascii (map ascii_of_nat [195; 137]%nat).

Definition cafe_lower : string :=
  Eval cbv in "caf" +:+ string_of_list_ascii (map ascii_of_nat [195; 169]%nat).

Definition accented_type : AirtableRecord :=
  record_with {[ "Start" := "2024-03-15T19:30:00.000Z"; "Type" := cafe_upper ]}.

Definition empty_tickets : AirtableRecord :=
  record_with {[ "Start" := "2024-03-15T19:30:00.000Z"; "Tickets URL" := "";
                 "Event URL" := "https://events.example/jam" ]}.

Definition empty_texts : AirtableRecord :=
  record_with {[ "Start" := "2024-03-15T19:30:00.000Z"; "Title" := "";
                 "Venue" := ""; "Type" := ""; "Tickets URL" := "" ]}.

Definition no_start : AirtableRecord :=
  record_with {[ "Title" := "Untimed" ]}.

(** 2024-03-10T12:00:00.000Z *)
Definition noon_10_march_2024 : Z := 1710072000000.
(** 2024-06-30T23:30:00.000Z *)
Definition late_30_june_2024 : Z := 1719790200000.

(** A fake endpoint that answers the first request with a page carrying a
    continuation token and every request that echoes a token with a page
    carrying none. Its state counts the requests it has answered. *)
Definition page_one : Response :=
  {| status := 200; records := [evening_show; summer_jam]; offset := Some "itrA/rec2" |}.

Definition page_two : Response :=
  {| status := 200; records := [no_start]; offset := None |}.

Definition two_pages (answered : nat) (req : Request) : Response * nat :=
  (match req_offset req with
   | None => page_one
   | Some _ => page_two
   end, S answered).

(** A fake endpoint that answers the first request with a page and the
    second with a server error. *)
Definition server_error : Response :=
  {| status := 503; records := []; offset := None |}.

Definition failing_second_page (answered : nat) (req : Request) : Response * nat :=
  (match req_offset req with
   | None => page_one
   | Some _ => server_error
   end, S answered).

Definition configured : gmap string string :=
  {[ "AIRTABLE_API_KEY" := "keyTEST"; "AIRTABLE_BASE_ID" := "appTEST" ]}.

Definition key_only : gmap string string :=
  {[ "AIRTABLE_API_KEY" := "keyTEST" ]}.

Definition empty_key : gmap string string :=
  {[ "AIRTABLE_API_KEY" := ""; "AIRTABLE_BASE_ID" := "appTEST" ]}.

Definition fresh_network : Network nat := {| server := 0%nat; sent := [] |}.

(** A runner in UTC with an [events.json] left by an earlier run and a file
    system that accepts the write. *)
Definition world (environment : gmap string string) : World nat :=
  {| env := environment; tza := Host.fixed_offset 0; now := noon_10_march_2024;
     write_time := noon_10_march_2024 + 1500; network := fresh_network;
     events_json := Some (Text "{}"); write_result := Written; stderr := [] |}.

(** The same runner on a full disk: the write throws after emptying the
    file. *)
Definition disk_full : JsError := Error "ENOSPC: no space left on device, write".

Definition world_with_full_disk (environment : gmap string string) : World nat :=
  {| env := environment; tza := Host.fixed_offset 0; now := noon_10_march_2024;
     write_time := noon_10_march_2024 + 1500; network := fresh_network;
     events_json := Some (Text "{}");
     write_result := WriteFails disk_full (Some (Text ""));
     stderr := [] |}.

(** Lowercasing of text in ASCII and the Latin-1 supplement, on its UTF-8
    bytes: U+00C0..U+00DE (C3 80 .. C3 9E) but for the multiplication sign
    U+00D7 move to U+00E0..U+00FE, and A..Z to a..z. [after_C3] says that the
    byte before was C3. *)
Definition latin1_lower_byte (after_C3 : bool) (c : ascii) : ascii :=
  let n := nat_of_ascii c in
  if after_C3 && (128 <=? n)%nat && (n <=? 158)%nat && negb (n =? 151)%nat
  then ascii_of_nat (n + 32)
  else Str.lower_ascii c.

Fixpoint latin1_lower_from (after_C3 : bool) (s : string) : string :=
  match s with
  | EmptyString => EmptyString
  | String c s' =>
      String (latin1_lower_byte after_C3 c)
        (latin1_lower_from (nat_of_ascii c =? 195)%nat s')
  end.

Definition latin1_lower : string -> string := latin1_lower_from false.

(** A runtime for the samples: it reads no date string outside the modelled
    form, and lowercases the letters of ASCII and Latin-1. *)
Definition runtime : Host.Runtime :=
  {| Host.Date_parse_other := fun _ => None;
     Host.toLowerCase_other := latin1_lower |}.

End Sample.

(** ** What every request of the fetcher carries *)

(** The parts of a request that do not depend on the page: the base and the
    table of the URL, the filter formula, the sort directive and the
    authorization header. *)
Definition approved_sorted_request (base_id api_key : string) (r : Script.Request) : Prop :=
  Script.req_base r = base_id
  /\ Script.req_table r = "Events"
  /\ Script.req_filterByFormula r
     = "{Status} = " +:+ String Str.dquote ("Approved" +:+ String Str.dquote "")
  /\ Script.req_sort_field r = "Start"
  /\ Script.req_sort_direction r = "asc"
  /\ Script.req_authorization r = "Bearer " +:+ api_key.

(** ** More sample endpoints *)

Module Endpoints.
Import Script.

(** An endpoint whose every page carries a continuation token. *)
Definition more_page : Response :=
  {| status := 200; records := [Sample.evening_show]; offset := Some "itrB/rec9" |}.

Definition always_more (answered : nat) (req : Request) : Response * nat :=
  (more_page, S answered).

(** An endpoint with a single page and no record on it. *)
Definition empty_page : Response :=
  {| status := 200; records := []; offset := None |}.

Definition no_records (answered : nat) (req : Request) : Response * nat :=
  (empty_page, S answered).

(** An endpoint with a single page of records that all lie before 2024. *)
Definition old_show : AirtableRecord :=
  Sample.record_with {[ "Start" := "2023-11-05T19:30:00.000Z"; "Title" := "Old" ]}.

Definition old_page : Response :=
  {| status := 200; records := [old_show]; offset := None |}.

Definition old_records (answered : nat) (req : Request) : Response * nat :=
  (old_page, S answered).

(** A record that also holds fields the transformer does not name. *)
Definition annotated_show : AirtableRecord :=
  {| id := "rec7";
     fields := {[ "Start" := "2024-03-15T19:30:00.000Z";
                  "End" := "2024-03-15T21:00:00.000Z";
                  "Status" := "Approved"; "Description" := "Two acts" ]} |}.

End Endpoints.

(** ** Order of dates *)

Module DateOrder.
Import Calendar.

(** The civil date as one number, [YYYYMMDD]. *)
Definition ymd_num (date : Z * Z * Z) : Z :=
  let '(y, m, d) := date in y * 10000 + m * 100 + d.

(** The civil date of day [d] has a four-digit year, a month of 1..12 and a
    day of 1..31, and lies before the civil date of the next day. *)
Definition day_step_ok (d : Z) : bool :=
  let '(y, m, dd) := civil_from_days d in
  (1000 <=? y) && (y <=? 9999) && (1 <=? m) && (m <=? 12)
  && (1 <=? dd) && (dd <=? 31)
  && (ymd_num (y, m, dd) <? ymd_num (civil_from_days (d + 1))).

(** The month before month [m] of year [y]. *)
Definition prev_month (y m : Z) : Z * Z :=
  if m =? 1 then (y - 1, 12) else (y, m - 1).

(** The day before the first day of month [m] of year [y] is the last day of
    the month before. *)
Definition month_eve_ok (y m : Z) : bool :=
  let '(py, pm) := prev_month y m in
  let '(y', m', d') := civil_from_days (days_from_civil y m 1 - 1) in
  (y' =? py) && (m' =? pm) && (d' =? days_in_month py pm) && (28 <=? d').

(** First day of the range (1969-01-01) and the number of days before
    1970-01-01 in it. *)
Definition first_day : Z := -365.
Definition day_count : nat := Z.to_nat 365.

End DateOrder.

(** ** Records in the order of the remote sort *)

(** The instant of a record's Start, when it is well formed. *)
Definition start_instant (record : Script.AirtableRecord) : option Z :=
  match Script.fields record !! "Start" with
  | Some start => Host.parse_iso start
  | None => None
  end.

(** [a] comes before [b] in a list sorted by Start, ascending: both have a
    well-formed Start, whose London day lies in the years 1969..2099, and
    the Start of [a] is not after the Start of [b]. *)
Definition start_ascending (a b : Script.AirtableRecord) : Prop :=
  exists ta tb,
    start_instant a = Some ta /\ start_instant b = Some tb /\ ta <= tb
    /\ DateOrder.first_day <= Calendar.Day (Host.london_time ta) < 47482
    /\ DateOrder.first_day <= Calendar.Day (Host.london_time tb) < 47482.

(** ** Checking the dates of the years 1970 to 2099 *)

Module DateCheck.
Import Calendar.

(** Month [m] of year [y] has between 1 and 31 days, lies within the days
    0..47481, and each of its days maps back to its date. *)
Definition month_days_ok (y m : Z) : bool :=
  let n0 := days_from_civil y m 1 in
  let len := days_in_month y m in
  (1 <=? len) && (len <=? 31) && (0 <=? n0) && (n0 + len <=? 47482)
  && CalendarCheck.all_from
       (fun d =>
          if d <=? len then
            let '(y', m', d') := civil_from_days (n0 + d - 1) in
            (y' =? y) && (m' =? m) && (d' =? d)
          else true)
       31 1.

End DateCheck.

(** A record that starts half an hour before midnight UTC in summer. *)
Definition late_summer_show : Script.AirtableRecord :=
  Sample.record_with {[ "Start" := "2024-07-31T23:30:00.000Z"; "Title" := "Late" ]}.

(** Records from before 1996: a January night under British Standard Time,
    and a noon three days after the end of summer time in 1995. *)
Definition british_standard_time_show : Script.AirtableRecord :=
  Sample.record_with {[ "Start" := "1970-01-15T23:30:00.000Z" ]}.

Definition october_1995_show : Script.AirtableRecord :=
  Sample.record_with {[ "Start" := "1995-10-25T12:00:00.000Z" ]}.

(** * Properties *)

Import Calendar Host Script.

(** ** The paginated fetcher *)

Section FetchProofs.

Variable Server : Type.
Variable respond : Server -> Request -> Response * Server.
Variables base_id api_key : string.

Local Abbreviation fetch_loop := (fetch_loop Server respond).
Local Abbreviation pages_served := (pages_served Server respond base_id api_key).
Local Abbreviation requests_sent := (requests_sent base_id api_key).

(** Receiving a run of successful pages that all carry a token advances the
    loop by one iteration per page. *)
Lemma fetch_loop_pages st off pages st' off' :
  pages_served st off pages st' off' ->
  forall fuel log events,
    fetch_loop (length pages + fuel) base_id api_key
      {| server := st; sent := log |} events off
    = fetch_loop fuel base_id api_key
        {| server := st'; sent := log ++ requests_sent off pages |}
        (events ++ concat (map records pages)) off'.
Proof.
  induction 1 as [st off | st off r st1 rest st' off' Hresp Hok Htok _ IH];
    intros fuel log events.
  - cbn. by rewrite !app_nil_r.
  - cbn [length Nat.add Script.fetch_loop]. unfold fetch. cbn [server sent].
    rewrite Hresp, Hok, Htok. cbn [negb].
    rewrite IH. cbn [requests_sent map concat].
    by rewrite <- !app_assoc.
Qed.

(** The last iteration: a successful response without a token ends the loop. *)
Lemma fetch_loop_last st off r st' fuel log events :
  respond st (request base_id api_key off) = (r, st') ->
  ok r = true ->
  Js.truthy (offset r) = false ->
  fetch_loop (S fuel) base_id api_key {| server := st; sent := log |} events off
  = Some (Normal (events ++ records r),
          {| server := st'; sent := log ++ [request base_id api_key off] |}).
Proof.
  intros Hresp Hok Htok. cbn [Script.fetch_loop]. unfold fetch. cbn [server sent].
  by rewrite Hresp, Hok, Htok.
Qed.

(** A response whose status is not a success makes the loop throw. *)
Lemma fetch_loop_rejected st off r st' fuel log events :
  respond st (request base_id api_key off) = (r, st') ->
  ok r = false ->
  fetch_loop (S fuel) base_id api_key {| server := st; sent := log |} events off
  = Some (Throw (Error ("Airtable API error: " +:+ Str.decimal (status r))),
          {| server := st'; sent := log ++ [request base_id api_key off] |}).
Proof.
  intros Hresp Hok. cbn [Script.fetch_loop]. unfold fetch. cbn [server sent].
  by rewrite Hresp, Hok.
Qed.

(** Every request after the first carries the token of the response before
    it. *)
Lemma requests_sent_offsets off pages st st' off' :
  pages_served st off pages st' off' ->
  forall last,
    map req_offset (requests_sent off (pages ++ [last]))
    = (if Js.truthy off then off else None) :: map offset pages.
Proof.
  induction 1 as [st off | st off r st1 rest st' off' Hresp Hok Htok _ IH];
    intros last.
  - reflexivity.
  - cbn [app requests_sent map req_offset request]. f_equal.
    rewrite IH. by rewrite Htok.
Qed.

(** The result of the loop does not depend on the fuel left over. *)
Lemma fetch_loop_more_fuel fuel extra net events off result :
  fetch_loop fuel base_id api_key net events off = Some result ->
  fetch_loop (fuel + extra) base_id api_key net events off = Some result.
Proof.
  revert net events off. induction fuel as [|fuel IH]; intros net events off; [done|].
  cbn [Nat.add Script.fetch_loop].
  destruct (fetch Server respond net (request base_id api_key off)) as [response net'].
  destruct (negb (ok response)); [done|].
  destruct (Js.truthy (offset response)); [apply IH | done].
Qed.

(** The loop has no other way out: against an endpoint whose every response
    is successful and carries a token, no amount of fuel yields a result. *)
Lemma fetch_loop_endless fuel net events off :
  (forall st req, ok (respond st req).1 = true
                  /\ Js.truthy (offset (respond st req).1) = true) ->
  fetch_loop fuel base_id api_key net events off = None.
Proof.
  intros Hall. revert net events off.
  induction fuel as [|fuel IH]; intros net events off; [done|].
  cbn [Script.fetch_loop]. unfold fetch.
  destruct (Hall (server net) (request base_id api_key off)) as [Hok Htok].
  destruct (respond (server net) (request base_id api_key off)) as [response st'].
  cbn [fst] in Hok, Htok. rewrite Hok, Htok. apply IH.
Qed.

End FetchProofs.

(** ** Strings *)

Lemma lower_ascii_not_upper c : Str.is_upper (Str.lower_ascii c) = false.
Proof. by destruct c as [[] [] [] [] [] [] [] []]. Qed.

Lemma lower_ascii_idemp c : Str.lower_ascii (Str.lower_ascii c) = Str.lower_ascii c.
Proof. by destruct c as [[] [] [] [] [] [] [] []]. Qed.

Lemma lower_ascii_below_128 c :
  (nat_of_ascii (Str.lower_ascii c) <? 128)%nat = (nat_of_ascii c <? 128)%nat.
Proof. by destruct c as [[] [] [] [] [] [] [] []]. Qed.

Lemma ascii_lower_has_no_uppercase s : Str.has_no_uppercase (Str.ascii_lower s) = true.
Proof.
  induction s as [|c s IH]; [done|].
  cbn [Str.ascii_lower Str.has_no_uppercase]. by rewrite lower_ascii_not_upper, IH.
Qed.

Lemma ascii_lower_idemp s : Str.ascii_lower (Str.ascii_lower s) = Str.ascii_lower s.
Proof.
  induction s as [|c s IH]; [done|].
  cbn [Str.ascii_lower]. by rewrite lower_ascii_idemp, IH.
Qed.

Lemma ascii_lower_is_ascii s : Str.is_ascii (Str.ascii_lower s) = Str.is_ascii s.
Proof.
  induction s as [|c s IH]; [done|].
  cbn [Str.ascii_lower Str.is_ascii]. by rewrite lower_ascii_below_128, IH.
Qed.

(** On ASCII text the engine's lowercasing is settled: the result has no
    letter A..Z and lowercasing it again changes nothing. *)
Lemma toLowerCase_ascii rt s :
  Str.is_ascii s = true ->
  toLowerCase rt s = Str.ascii_lower s
  /\ Str.has_no_uppercase (toLowerCase rt s) = true
  /\ toLowerCase rt (toLowerCase rt s) = toLowerCase rt s.
Proof.
  intros Hs. unfold toLowerCase. rewrite Hs, ascii_lower_is_ascii, Hs.
  split; [done|]. split; [apply ascii_lower_has_no_uppercase | apply ascii_lower_idemp].
Qed.

(** The runtime of the samples lowercases idempotently. *)
Lemma latin1_lower_byte_idemp b c :
  Sample.latin1_lower_byte b (Sample.latin1_lower_byte b c) = Sample.latin1_lower_byte b c
  /\ (nat_of_ascii (Sample.latin1_lower_byte b c) =? 195)%nat = (nat_of_ascii c =? 195)%nat.
Proof. by destruct b, c as [[] [] [] [] [] [] [] []]. Qed.

Lemma latin1_lower_from_idemp b s :
  Sample.latin1_lower_from b (Sample.latin1_lower_from b s) = Sample.latin1_lower_from b s.
Proof.
  revert b. induction s as [|c s IH]; intros b; [done|].
  cbn [Sample.latin1_lower_from].
  destruct (latin1_lower_byte_idemp b c) as [-> ->]. by rewrite IH.
Qed.

Lemma latin1_lower_from_ascii b s :
  Str.is_ascii s = true -> Sample.latin1_lower_from b s = Str.ascii_lower s.
Proof.
  revert b. induction s as [|c s IH]; intros b; [done|].
  cbn [Str.is_ascii Sample.latin1_lower_from Str.ascii_lower].
  intros [Hc Hs]%andb_true_iff. rewrite (IH _ Hs). f_equal.
  revert Hc. by destruct b, c as [[] [] [] [] [] [] [] []].
Qed.

Lemma sample_toLowerCase_idemp s :
  toLowerCase Sample.runtime (toLowerCase Sample.runtime s) = toLowerCase Sample.runtime s.
Proof.
  destruct (Str.is_ascii s) eqn:Hs; [by apply toLowerCase_ascii|].
  unfold toLowerCase at 2 3. rewrite Hs. cbn [Sample.runtime toLowerCase_other].
  unfold toLowerCase, Sample.latin1_lower.
  destruct (Str.is_ascii (Sample.latin1_lower_from false s)) eqn:Hl.
  - rewrite <- (latin1_lower_from_ascii false _ Hl). apply latin1_lower_from_idemp.
  - apply latin1_lower_from_idemp.
Qed.

Lemma eqb_empty_false s : s <> "" -> String.eqb s "" = false.
Proof. intros Hs. by apply String.eqb_neq. Qed.

Lemma append_String c (a b : string) : String c a +:+ b = String c (a +:+ b).
Proof. reflexivity. Qed.

Lemma append_head_inv (p a b : string) : p +:+ a = p +:+ b -> a = b.
Proof. induction p as [|c p IH]; cbn; [done|]. intros [= H]. auto. Qed.

Lemma separator_is_not_en_dash : time_range_separator <> Str.en_dash.
Proof. discriminate. Qed.

(** ** The record transformer *)

Lemma or_default_present (s d : string) : s <> "" -> Js.or_default (Some s) d = s.
Proof. intros Hs. unfold Js.or_default. by rewrite eqb_empty_false. Qed.

Lemma or_else_present (s : string) b : s <> "" -> Js.or_else (Some s) b = Some s.
Proof. intros Hs. unfold Js.or_else, Js.truthy. by rewrite eqb_empty_false. Qed.

(** Without an [End], the time is the start's London wall-clock [HH:MM]. *)
Lemma parse_iso_not_empty s t : parse_iso s = Some t -> String.eqb s "" = false.
Proof. by destruct s. Qed.

(** A [Start] of the form read by [parse_iso] is read as its instant. *)
Lemma new_Date_value_parsed rt s t :
  parse_iso s = Some t -> new_Date_value rt (Some s) = Some t.
Proof.
  intros Hp. unfold new_Date_value. by rewrite (parse_iso_not_empty s t Hp), Hp.
Qed.

Lemma formatTime_start_only rt (startISO : string) t :
  parse_iso startISO = Some t ->
  formatTime rt (Some startISO) None
  = Str.pad2 (HourFromTime (london_time t)) +:+ ":" +:+ Str.pad2 (MinFromTime (london_time t)).
Proof.
  intros Hp. unfold formatTime. cbn [Js.truthy negb].
  by rewrite (new_Date_value_parsed rt _ _ Hp).
Qed.

(** With an [End], the two times are joined by the separator of the source,
    which is never the en dash. *)
Lemma formatTime_range rt (startISO : option string) (endISO : string) :
  endISO <> "" ->
  formatTime rt startISO (Some endISO)
  = toLocaleTimeString_enGB_London (new_Date_value rt startISO)
    +:+ time_range_separator
    +:+ toLocaleTimeString_enGB_London (new_Date_value rt (Some endISO))
  /\ formatTime rt startISO (Some endISO)
     <> toLocaleTimeString_enGB_London (new_Date_value rt startISO)
        +:+ Str.en_dash
        +:+ toLocaleTimeString_enGB_London (new_Date_value rt (Some endISO)).
Proof.
  intros He. unfold formatTime, Js.truthy. rewrite eqb_empty_false by done.
  cbn [negb]. split; [done|].
  intros H. apply append_head_inv in H.
  apply (f_equal (fun x => String.get 0 x)) in H. vm_compute in H. discriminate H.
Qed.

(** C2. For the record of the specification's round-trip property
    (Start 2024-03-15T19:30Z, End 2024-03-15T21:00Z) the transformer's time
    is the two London times joined by the characters U+00E2 U+20AC U+201C of
    the source's template literal; it is not ["19:30"], an en dash and
    ["21:00"]. *)
Theorem formatTime_range_joined_by_source_literal rt :
  time (transformEvent rt Sample.evening_show)
  = "19:30" +:+ time_range_separator +:+ "21:00"
  /\ String.length time_range_separator = 8%nat
  /\ time (transformEvent rt Sample.evening_show) <> "19:30" +:+ Str.en_dash +:+ "21:00".
Proof.
  assert (time (transformEvent rt Sample.evening_show)
          = "19:30" +:+ time_range_separator +:+ "21:00") as ->.
  { cbn [transformEvent time].
    assert (fields Sample.evening_show !! "Start" = Some "2024-03-15T19:30:00.000Z")
      as -> by (vm_compute; reflexivity).
    assert (fields Sample.evening_show !! "End" = Some "2024-03-15T21:00:00.000Z")
      as -> by (vm_compute; reflexivity).
    unfold formatTime.
    rewrite (new_Date_value_parsed rt "2024-03-15T19:30:00.000Z" 1710531000000)
      by (vm_compute; reflexivity).
    rewrite (new_Date_value_parsed rt "2024-03-15T21:00:00.000Z" 1710536400000)
      by (vm_compute; reflexivity).
    vm_compute. reflexivity. }
  split; [reflexivity|]. split; [reflexivity|]. vm_compute. discriminate.
Qed.

(** C6, as the claim states it, fails whatever the engine: a record whose
    [Type] is the empty string does not get its [Type] lowercased, it gets
    ["show"]. *)
Lemma transformEvent_type_empty_counterexample :
  ~ (exists rt, forall record s,
       fields record !! "Type" = Some s ->
       type (transformEvent rt record) = toLowerCase rt s).
Proof.
  intros [rt H]. specialize (H Sample.empty_type "" eq_refl).
  vm_compute in H. discriminate H.
Qed.

(** C6, amended. The type is the [Type] field as the engine's [toLowerCase]
    returns it when that field is present and not empty, and ["show"] when
    it is absent or empty. When the [Type] is ASCII text, absent or empty,
    the type is that text with A..Z replaced by a..z: it holds no uppercase
    letter and [toLowerCase] leaves it as it is. For any other [Type] the
    type is left as it is by [toLowerCase] on an engine whose [toLowerCase]
    is idempotent. *)
Theorem transformEvent_type rt record :
  (forall s, fields record !! "Type" = Some s -> s <> "" ->
     type (transformEvent rt record) = toLowerCase rt s)
  /\ (fields record !! "Type" = None \/ fields record !! "Type" = Some "" ->
      type (transformEvent rt record) = "show")
  /\ (Str.is_ascii (Js.or_default (fields record !! "Type") "show") = true ->
      type (transformEvent rt record)
      = Str.ascii_lower (Js.or_default (fields record !! "Type") "show")
      /\ Str.has_no_uppercase (type (transformEvent rt record)) = true
      /\ toLowerCase rt (type (transformEvent rt record)) = type (transformEvent rt record))
  /\ ((forall s, toLowerCase rt (toLowerCase rt s) = toLowerCase rt s) ->
      toLowerCase rt (type (transformEvent rt record)) = type (transformEvent rt record)).
Proof.
  cbn [transformEvent type]. split; [|split; [|split]].
  - intros s -> Hs. by rewrite or_default_present.
  - intros [-> | ->]; vm_compute; reflexivity.
  - apply toLowerCase_ascii.
  - intros Hidem. apply Hidem.
Qed.

Lemma transformEvent_type_witness :
  type (transformEvent Sample.runtime Sample.summer_jam) = "workshop"
  /\ type (transformEvent Sample.runtime Sample.empty_type) = "show"
  /\ Str.has_no_uppercase (type (transformEvent Sample.runtime Sample.summer_jam)) = true
  /\ type (transformEvent Sample.runtime Sample.accented_type) = Sample.cafe_lower
  /\ toLowerCase Sample.runtime (type (transformEvent Sample.runtime Sample.accented_type))
     = type (transformEvent Sample.runtime Sample.accented_type).
Proof.
  destruct (transformEvent_type Sample.runtime Sample.summer_jam)
    as (Hjam & _ & Hascii & _).
  destruct (transformEvent_type Sample.runtime Sample.empty_type) as (_ & Hshow & _).
  destruct (transformEvent_type Sample.runtime Sample.accented_type)
    as (Hcafe & _ & _ & Hfixed).
  split; [|split; [|split; [|split]]].
  - rewrite (Hjam "Workshop"); [reflexivity | reflexivity | discriminate].
  - apply Hshow. right. reflexivity.
  - apply Hascii. reflexivity.
  - rewrite (Hcafe Sample.cafe_upper); [reflexivity | reflexivity | discriminate].
  - apply Hfixed. exact sample_toLowerCase_idemp.
Defined.

(** C7, as the claim states it, fails: a record whose [Tickets URL] is
    present but empty takes its url from [Event URL]. *)
Lemma transformEvent_url_empty_tickets_counterexample :
  ~ (exists rt, forall record s,
       fields record !! "Tickets URL" = Some s ->
       url (transformEvent rt record) = s).
Proof.
  intros [rt H]. specialize (H Sample.empty_tickets "" eq_refl).
  vm_compute in H. discriminate H.
Qed.

(** C7, amended. The url is the [Tickets URL] field when present and not
    empty; otherwise the [Event URL] field when present; otherwise the empty
    string. For a record missing both fields it is the empty string. *)
Theorem transformEvent_url rt record :
  (forall s, fields record !! "Tickets URL" = Some s -> s <> "" ->
     url (transformEvent rt record) = s)
  /\ (fields record !! "Tickets URL" = None \/ fields record !! "Tickets URL" = Some "" ->
      forall s, fields record !! "Event URL" = Some s ->
        url (transformEvent rt record) = s)
  /\ (fields record !! "Tickets URL" = None \/ fields record !! "Tickets URL" = Some "" ->
      fields record !! "Event URL" = None ->
      url (transformEvent rt record) = "")
  /\ (fields record !! "Tickets URL" = None ->
      fields record !! "Event URL" = None ->
      url (transformEvent rt record) = "").
Proof.
  cbn [transformEvent url]. repeat split.
  - intros s -> Hs. rewrite or_else_present by done. by apply or_default_present.
  - intros Ht s ->. destruct Ht as [-> | ->]; cbn; by destruct (String.eqb_spec s "").
  - by intros [-> | ->] ->.
  - by intros -> ->.
Qed.

Lemma transformEvent_url_witness :
  url (transformEvent Sample.runtime Sample.summer_jam) = "https://tickets.example/jam"
  /\ url (transformEvent Sample.runtime Sample.empty_tickets) = "https://events.example/jam"
  /\ url (transformEvent Sample.runtime Sample.no_start) = "".
Proof.
  split; [|split].
  - apply (proj1 (transformEvent_url Sample.runtime Sample.summer_jam));
      [reflexivity | discriminate].
  - apply (proj1 (proj2 (transformEvent_url Sample.runtime Sample.empty_tickets)));
      [right; reflexivity | reflexivity].
  - apply (proj2 (proj2 (proj2 (transformEvent_url Sample.runtime Sample.no_start))));
      reflexivity.
Defined.

(** Deleting a field that holds the empty string changes a lookup only from
    the empty string to [undefined]. *)
Lemma lookup_delete_empty (fs : gmap string string) (k j : string) :
  fs !! k = Some "" ->
  delete k fs !! j = fs !! j \/ (fs !! j = Some "" /\ delete k fs !! j = None).
Proof.
  intros Hk. destruct (decide (k = j)) as [<- | Hne].
  - right. split; [done|]. apply lookup_delete_eq.
  - left. by apply lookup_delete_ne.
Qed.

(** C9. The transformer treats a field holding the empty string as it
    treats an absent one: an empty [Type] gives ["show"]; with an empty
    [Tickets URL] the url is the [Event URL] field, whatever that holds, and
    the empty string when [Event URL] is absent or empty too; an empty
    [Title] or [Venue] stays empty; and removing any field that holds the
    empty string leaves the transformed event unchanged. *)
Theorem transformEvent_empty_as_absent rt record :
  (fields record !! "Type" = Some "" -> type (transformEvent rt record) = "show")
  /\ (fields record !! "Tickets URL" = Some "" ->
      forall s, fields record !! "Event URL" = Some s ->
        url (transformEvent rt record) = s)
  /\ (fields record !! "Tickets URL" = Some "" ->
      fields record !! "Event URL" = None \/ fields record !! "Event URL" = Some "" ->
      url (transformEvent rt record) = "")
  /\ (fields record !! "Title" = Some "" -> title (transformEvent rt record) = "")
  /\ (fields record !! "Venue" = Some "" -> venue (transformEvent rt record) = "")
  /\ (forall k, fields record !! k = Some "" ->
      transformEvent rt record
      = transformEvent rt {| id := id record; fields := delete k (fields record) |}).
Proof.
  repeat split; cbn [transformEvent type url title venue].
  - intros ->. vm_compute. reflexivity.
  - intros -> s ->. cbn. by destruct (String.eqb_spec s "").
  - by intros -> [-> | ->].
  - by intros ->.
  - by intros ->.
  - intros k Hk. unfold transformEvent. cbn [fields].
    pose proof (lookup_delete_empty (fields record) k "Start" Hk) as HS.
    pose proof (lookup_delete_empty (fields record) k "End" Hk) as HE.
    f_equal.
    + destruct HS as [-> | [-> ->]]; reflexivity.
    + destruct (lookup_delete_empty (fields record) k "Title" Hk) as [-> | [-> ->]];
        reflexivity.
    + destruct (lookup_delete_empty (fields record) k "Venue" Hk) as [-> | [-> ->]];
        reflexivity.
    + destruct HS as [-> | [-> ->]], HE as [-> | [-> ->]]; reflexivity.
    + destruct (lookup_delete_empty (fields record) k "Type" Hk) as [-> | [-> ->]];
        reflexivity.
    + destruct (lookup_delete_empty (fields record) k "Tickets URL" Hk) as [-> | [-> ->]],
        (lookup_delete_empty (fields record) k "Event URL" Hk) as [-> | [-> ->]];
        try reflexivity.
      unfold Js.or_else. by destruct (Js.truthy (fields record !! "Tickets URL")).
Qed.

Lemma transformEvent_empty_as_absent_witness :
  type (transformEvent Sample.runtime Sample.empty_texts) = "show"
  /\ url (transformEvent Sample.runtime Sample.empty_tickets) = "https://events.example/jam"
  /\ url (transformEvent Sample.runtime Sample.empty_texts) = ""
  /\ title (transformEvent Sample.runtime Sample.empty_texts) = ""
  /\ venue (transformEvent Sample.runtime Sample.empty_texts) = ""
  /\ transformEvent Sample.runtime Sample.empty_tickets
     = transformEvent Sample.runtime
         {| id := id Sample.empty_tickets;
            fields := delete "Tickets URL" (fields Sample.empty_tickets) |}.
Proof.
  destruct (transformEvent_empty_as_absent Sample.runtime Sample.empty_texts)
    as (Htype & _ & Hurl & Htitle & Hvenue & _).
  destruct (transformEvent_empty_as_absent Sample.runtime Sample.empty_tickets)
    as (_ & Hevent & _ & _ & _ & Hdel).
  split; [apply Htype; reflexivity|].
  split; [apply Hevent; reflexivity|].
  split; [apply Hurl; [reflexivity | left; reflexivity]|].
  split; [apply Htitle; reflexivity|].
  split; [apply Hvenue; reflexivity|].
  apply Hdel. reflexivity.
Defined.

(** ** Dates as strings *)

Lemma digit_char_below_I k :
  0 <= k <= 9 -> Ascii.compare "I" (Str.digit_char k) = Gt.
Proof.
  intros Hk.
  assert (k = 0 \/ k = 1 \/ k = 2 \/ k = 3 \/ k = 4 \/ k = 5 \/ k = 6 \/ k = 7
          \/ k = 8 \/ k = 9) as Hcases by lia.
  repeat (destruct Hcases as [-> | Hcases]; [reflexivity|]). by subst.
Qed.

(** A decimal rendering starts with a digit. *)
Lemma decimal_go_head fuel n acc :
  exists k tl, 0 <= k <= 9 /\ Str.decimal_go fuel n acc = String (Str.digit_char k) tl.
Proof.
  revert n acc. induction fuel as [|fuel IH]; intros n acc; cbn [Str.decimal_go].
  - exists (n mod 10), acc. split; [|done].
    pose proof (Z.mod_pos_bound n 10). lia.
  - destruct (n / 10 =? 0); [|apply IH].
    exists (n mod 10), acc. split; [|done].
    pose proof (Z.mod_pos_bound n 10). lia.
Qed.

(** The string ["Invalid Date"] is at or above every string the date
    formatter can return. *)
Lemma Invalid_Date_ge_any_date (d : Date) :
  Str.ge "Invalid Date" (toLocaleDateString_enCA_London d) = true.
Proof.
  destruct d as [t|]; [|reflexivity].
  unfold toLocaleDateString_enCA_London.
  destruct (civil_from_days (Day (london_time t))) as [[y m] dd].
  unfold format_ymd, Str.decimal.
  destruct (decimal_go_head (Z.to_nat (Z.log2 (year_of_era y))) (year_of_era y) "")
    as (k & tl & Hk & ->).
  unfold Str.ge. rewrite append_String. cbn [String.compare].
  by rewrite digit_char_below_I.
Qed.

(** ** The date-window filter *)

Lemma recentAndFutureEvents_spec threshold events e :
  e ∈ recentAndFutureEvents threshold events
  <-> e ∈ events /\ Str.ge (date e) threshold = true.
Proof.
  unfold recentAndFutureEvents. rewrite list_elem_of_filter, Is_true_true. tauto.
Qed.

Lemma StronglySorted_sublist {A} (R : relation A) (l k : list A) :
  k `sublist_of` l -> StronglySorted R l -> StronglySorted R k.
Proof.
  induction 1 as [| x k l Hsub IH | x k l Hsub IH]; intros Hs.
  - constructor.
  - apply StronglySorted_inv in Hs as [Hs Hall]. constructor; [by apply IH|].
    rewrite Forall_forall in *. intros y Hy. apply Hall.
    by eapply sublist_subseteq.
  - apply StronglySorted_inv in Hs as [Hs _]. by apply IH.
Qed.

(** C10. For a record without a [Start] field the transformer returns an
    event all the same: its date is the string ["Invalid Date"], its time
    starts with ["Invalid Date"] (and is exactly that without an [End]),
    and the date-window filter of any run keeps the event. *)
Theorem transformEvent_without_Start rt record :
  fields record !! "Start" = None ->
  date (transformEvent rt record) = "Invalid Date"
  /\ (exists rest, time (transformEvent rt record) = "Invalid Date" +:+ rest)
  /\ (fields record !! "End" = None -> time (transformEvent rt record) = "Invalid Date")
  /\ (forall tza now records,
        record ∈ records ->
        transformEvent rt record
        ∈ recentAndFutureEvents (prevMonthStart tza now) (map (transformEvent rt) records)).
Proof.
  intros HS.
  assert (date (transformEvent rt record) = "Invalid Date") as Hdate.
  { cbn [transformEvent date]. by rewrite HS. }
  split; [done|]. split; [|split].
  - cbn [transformEvent time]. rewrite HS. unfold formatTime.
    destruct (Js.truthy (fields record !! "End")); cbn [negb].
    + eexists. reflexivity.
    + by exists "".
  - intros HE. cbn [transformEvent time]. by rewrite HS, HE.
  - intros tza now records Hin. apply recentAndFutureEvents_spec. split.
    + apply list_elem_of_fmap. by exists record.
    + rewrite Hdate. apply Invalid_Date_ge_any_date.
Qed.

Lemma transformEvent_without_Start_witness :
  date (transformEvent Sample.runtime Sample.no_start) = "Invalid Date"
  /\ time (transformEvent Sample.runtime Sample.no_start) = "Invalid Date"
  /\ transformEvent Sample.runtime Sample.no_start
     ∈ recentAndFutureEvents (prevMonthStart 0 Sample.noon_10_march_2024)
         (map (transformEvent Sample.runtime) [Sample.evening_show; Sample.no_start]).
Proof.
  destruct (transformEvent_without_Start Sample.runtime Sample.no_start eq_refl)
    as (Hdate & _ & Htime & Hkept).
  split; [exact Hdate|]. split; [apply Htime; reflexivity|].
  apply Hkept. right. left.
Defined.

(** ** The threshold on a runner in UTC *)

Lemma all_from_spec f n z0 z :
  CalendarCheck.all_from f n z0 = true -> z0 <= z < z0 + Z.of_nat n -> f z = true.
Proof.
  revert z0. induction n as [|n IH]; intros z0 Hall Hz; [lia|].
  cbn [CalendarCheck.all_from] in Hall. apply andb_true_iff in Hall as [Hz0 Hall].
  destruct (decide (z = z0)) as [-> | Hne]; [done|].
  apply (IH (z0 + 1)); [done | lia].
Qed.

Lemma days_1970_2099_ok d :
  0 <= d < 47482 -> CalendarCheck.day_ok d = true.
Proof.
  intros Hd.
  assert (CalendarCheck.all_from CalendarCheck.day_ok CalendarCheck.days_until_2100 0 = true)
    as Hall by (vm_compute; reflexivity).
  apply (all_from_spec _ _ _ d Hall). unfold CalendarCheck.days_until_2100. lia.
Qed.

Lemma months_1969_2099_ok y m :
  1969 <= y <= 2099 -> 1 <= m <= 12 -> CalendarCheck.month_ok y m = true.
Proof.
  intros Hy Hm.
  assert (CalendarCheck.all_from CalendarCheck.year_ok 131 1969 = true)
    as Hall by (vm_compute; reflexivity).
  pose proof (all_from_spec _ _ _ y Hall) as Hyear.
  apply (all_from_spec _ _ _ m (Hyear ltac:(lia))). lia.
Qed.

Lemma london_offset_cases t : london_offset t = 0 \/ london_offset t = msPerHour.
Proof.
  unfold london_offset. destruct (_ <? _); [auto|]. destruct (_ && _); auto.
Qed.

(** The London date of a UTC midnight is the UTC date. *)
Lemma Day_london_midnight d : Day (london_time (MakeDate d (MakeTime 0 0 0 0))) = d.
Proof.
  unfold london_time.
  destruct (london_offset_cases (MakeDate d (MakeTime 0 0 0 0))) as [-> | ->];
    unfold Day, MakeDate, MakeTime, msPerDay, msPerHour, msPerMinute, msPerSecond;
    Z.div_mod_to_equations; lia.
Qed.

(** [new Date(y, m - 2, 1)] on a UTC runner, for a civil month [m] of 1..12:
    the UTC midnight that starts the month before. *)
Lemma new_Date_prev_month_utc y m :
  1970 <= y <= 2099 -> 1 <= m <= 12 ->
  new_Date_ymd 0 y (m - 1 - 1) 1
  = Some (MakeDate (days_from_civil (if m =? 1 then y - 1 else y)
                                    (if m =? 1 then 12 else m - 1) 1)
                   (MakeTime 0 0 0 0)).
Proof.
  intros Hy Hm. unfold new_Date_ymd.
  replace ((0 <=? y) && (y <=? 99)) with false by (symmetry; apply andb_false_iff; lia).
  unfold MakeDay.
  assert (y + (m - 1 - 1) / 12 = (if m =? 1 then y - 1 else y)
          /\ (m - 1 - 1) mod 12 + 1 = (if m =? 1 then 12 else m - 1)) as [-> ->].
  { destruct (Z.eqb_spec m 1); Z.div_mod_to_equations; lia. }
  set (y' := if m =? 1 then y - 1 else y).
  set (m' := if m =? 1 then 12 else m - 1).
  assert (CalendarCheck.month_ok y' m' = true) as Hok.
  { apply months_1969_2099_ok; subst y' m'; destruct (Z.eqb_spec m 1); lia. }
  unfold CalendarCheck.month_ok in Hok.
  destruct (civil_from_days (days_from_civil y' m' 1)) as [[y2 m2] d2].
  rewrite !andb_true_iff in Hok. destruct Hok as [[_ Hlo] Hhi].
  unfold UTC, TimeClip. cbn [offset_at_local fixed_offset]. rewrite Z.sub_0_r.
  replace (days_from_civil y' m' 1 + 1 - 1) with (days_from_civil y' m' 1) by lia.
  replace (Z.abs _ <=? _) with true; [done|].
  symmetry. apply Z.leb_le.
  unfold MakeDate, MakeTime, msPerDay, msPerHour, msPerMinute, msPerSecond. lia.
Qed.

(** On a runner in UTC, at every instant of the years 1970..2099, the code's
    threshold is the first day of the month preceding the current UTC
    month. *)
Lemma prevMonthStart_utc now :
  0 <= now < CalendarCheck.start_of_2100 ->
  prevMonthStart 0 now = utc_prev_month_start now.
Proof.
  intros Hnow. unfold prevMonthStart, utc_prev_month_start.
  unfold getFullYear, getMonth, LocalTime, YearFromTime, MonthFromTime.
  cbn [offset_at_utc fixed_offset]. rewrite Z.add_0_r.
  assert (0 <= Day now < 47482) as Hday.
  { unfold Day, msPerDay, CalendarCheck.start_of_2100 in *.
    Z.div_mod_to_equations; lia. }
  pose proof (days_1970_2099_ok _ Hday) as Hok. unfold CalendarCheck.day_ok in Hok.
  destruct (civil_from_days (Day now)) as [[y m] d]. cbn [fst snd].
  rewrite !andb_true_iff in Hok.
  destruct Hok as [[[[[[Hy1 Hy2] Hm1] Hm2] _] _] _].
  rewrite new_Date_prev_month_utc by lia.
  unfold toLocaleDateString_enCA_London. rewrite Day_london_midnight.
  set (y' := if m =? 1 then y - 1 else y).
  set (m' := if m =? 1 then 12 else m - 1).
  assert (CalendarCheck.month_ok y' m' = true) as Hmok.
  { apply months_1969_2099_ok; subst y' m'; destruct (Z.eqb_spec m 1); lia. }
  unfold CalendarCheck.month_ok in Hmok.
  destruct (civil_from_days (days_from_civil y' m' 1)) as [[y2 m2] d2].
  rewrite !andb_true_iff in Hmok.
  destruct Hmok as [[[[Hy Hm] Hd] _] _].
  apply Z.eqb_eq in Hy, Hm, Hd. subst y2 m2 d2 y' m'.
  by destruct (m =? 1).
Qed.

(** So on such a runner the threshold is the one the specification words
    whenever London and UTC are in the same month at that instant. *)
Lemma prevMonthStart_utc_same_month now :
  0 <= now < CalendarCheck.start_of_2100 ->
  fst (civil_from_days (Day (london_time now))) = fst (civil_from_days (Day now)) ->
  prevMonthStart 0 now = london_prev_month_start now.
Proof.
  intros Hnow Hsame. rewrite prevMonthStart_utc by done.
  unfold utc_prev_month_start, london_prev_month_start.
  destruct (civil_from_days (Day (london_time now))) as [[y1 m1] d1].
  destruct (civil_from_days (Day now)) as [[y2 m2] d2].
  cbn [fst] in Hsame. by injection Hsame as -> ->.
Qed.

(** The specification's filtering example holds on a runner whose zone is
    UTC: on 2024-03-10 the threshold is 2024-02-01, an event dated
    2024-01-31 is dropped and one dated 2024-02-01 is kept. *)
Lemma prevMonthStart_10_march_2024_utc :
  prevMonthStart 0 Sample.noon_10_march_2024 = "2024-02-01"
  /\ recentAndFutureEvents (prevMonthStart 0 Sample.noon_10_march_2024)
       [Sample.event_on "2024-01-31"; Sample.event_on "2024-02-01"]
     = [Sample.event_on "2024-02-01"].
Proof. vm_compute. split; reflexivity. Qed.

(** C1. The threshold takes the current month from the process's own time
    zone, not from [Europe/London]. On a runner in UTC at
    2024-06-30T23:30:00Z London is already at 2024-07-01, so the first day of
    the month before London's current month is 2024-06-01, yet the code's
    threshold is 2024-05-01 and an event dated 2024-05-15 is kept. In a zone
    one hour east of UTC at 2024-03-10T12:00:00Z the threshold is 2024-01-31
    and an event dated 2024-01-31 is kept. *)
Theorem prevMonthStart_uses_process_zone :
  toLocaleDateString_enCA_London (Some Sample.late_30_june_2024) = "2024-07-01"
  /\ london_prev_month_start Sample.late_30_june_2024 = "2024-06-01"
  /\ prevMonthStart 0 Sample.late_30_june_2024 = "2024-05-01"
  /\ recentAndFutureEvents (prevMonthStart 0 Sample.late_30_june_2024)
       [Sample.event_on "2024-05-15"]
     = [Sample.event_on "2024-05-15"]
  /\ prevMonthStart msPerHour Sample.noon_10_march_2024 = "2024-01-31"
  /\ recentAndFutureEvents (prevMonthStart msPerHour Sample.noon_10_march_2024)
       [Sample.event_on "2024-01-31"]
     = [Sample.event_on "2024-01-31"].
Proof. vm_compute. repeat split; reflexivity. Qed.

(** C8. The filter's output is a subsequence of its input, so it keeps the
    relative order of the events; in particular an input in ascending date
    order gives an output in ascending date order. *)
Theorem recentAndFutureEvents_keeps_order threshold (events : list Event) :
  recentAndFutureEvents threshold events `sublist_of` events
  /\ (StronglySorted date_ascending events ->
      StronglySorted date_ascending (recentAndFutureEvents threshold events)).
Proof.
  assert (recentAndFutureEvents threshold events `sublist_of` events) as Hsub.
  { unfold recentAndFutureEvents. apply sublist_filter. }
  split; [done|]. by apply StronglySorted_sublist.
Qed.

Lemma recentAndFutureEvents_keeps_order_witness :
  StronglySorted date_ascending
    (recentAndFutureEvents "2024-02-01"
       [Sample.event_on "2024-01-31"; Sample.event_on "2024-02-01";
        Sample.event_on "2024-02-01"; Sample.event_on "2024-03-15"]).
Proof.
  apply (proj2 (recentAndFutureEvents_keeps_order "2024-02-01" _)).
  repeat match goal with
         | |- StronglySorted _ _ => constructor
         | |- Forall _ _ => constructor
         | |- date_ascending _ _ => exact I
         end.
Defined.

(** ** The process: fetch, main and the top level *)

Section ProcessProofs.

Variable Server : Type.
Variable respond : Server -> Request -> Response * Server.
Variable rt : Runtime.

Local Abbreviation fetch_loop := (fetch_loop Server respond).
Local Abbreviation fetchApprovedEvents := (fetchApprovedEvents Server respond).
Local Abbreviation pages_served := (pages_served Server respond).
Local Abbreviation main := (main Server respond rt).
Local Abbreviation script := (script Server respond rt).

Lemma requests_sent_snoc base_id api_key st off pages st' off' last :
  pages_served base_id api_key st off pages st' off' ->
  requests_sent base_id api_key off (pages ++ [last])
  = requests_sent base_id api_key off pages ++ [request base_id api_key off'].
Proof.
  induction 1 as [st off | st off r st1 rest st' off' _ _ _ _ IH]; [done|].
  cbn [app requests_sent]. by rewrite IH.
Qed.

Lemma ok_false_iff r : ok r = false <-> ~ (200 <= status r <= 299).
Proof. unfold ok. rewrite andb_false_iff, !Z.leb_gt. lia. Qed.

(** C3. When the endpoint answers the loop's requests with the successful
    pages [pages], each carrying a continuation token, and then with a
    successful page [last] carrying none, the fetcher (given fuel for one
    request per page) returns the records of all the pages, page after page
    and within a page in the response's order; it sent exactly one request
    per page, the first without a token and each later one with the token of
    the response before it. *)
Theorem fetchApprovedEvents_all_pages base_id api_key (net : Network Server)
    pages st1 off1 last st2 fuel :
  pages_served base_id api_key (server net) None pages st1 off1 ->
  respond st1 (request base_id api_key off1) = (last, st2) ->
  ok last = true ->
  Js.truthy (offset last) = false ->
  (length pages < fuel)%nat ->
  fetchApprovedEvents fuel base_id api_key net
  = Some (Normal (concat (map records (pages ++ [last]))),
          {| server := st2;
             sent := sent net ++ requests_sent base_id api_key None (pages ++ [last]) |})
  /\ map req_offset (requests_sent base_id api_key None (pages ++ [last]))
     = None :: map offset pages.
Proof.
  intros Hpages Hresp Hok Htok Hfuel. split.
  - unfold Script.fetchApprovedEvents. destruct net as [st log]. cbn [server sent] in *.
    replace fuel with (length pages + S (fuel - length pages - 1))%nat by lia.
    rewrite (fetch_loop_pages _ _ _ _ _ _ _ _ _ Hpages).
    rewrite (fetch_loop_last _ _ _ _ _ _ _ _ _ _ _ Hresp Hok Htok).
    rewrite (requests_sent_snoc _ _ _ _ _ _ _ last Hpages).
    rewrite map_app, concat_app. cbn [map concat].
    by rewrite !app_nil_l, app_nil_r, <- !app_assoc.
  - by rewrite (requests_sent_offsets _ _ _ _ _ _ _ _ _ Hpages).
Qed.

Lemma main_rejected base_id api_key (w : World Server) pages st1 off1 bad st2 fuel :
  pages_served base_id api_key (server (network w)) None pages st1 off1 ->
  respond st1 (request base_id api_key off1) = (bad, st2) ->
  ok bad = false ->
  (length pages < fuel)%nat ->
  exists net',
    main fuel base_id api_key w
    = Some (Throw (Error ("Airtable API error: " +:+ Str.decimal (status bad))),
            set_network Server w net').
Proof.
  intros Hpages Hresp Hok Hfuel.
  unfold Script.main, Script.fetchApprovedEvents.
  destruct (network w) as [st log] eqn:Hnet. cbn [server] in Hpages.
  replace fuel with (length pages + S (fuel - length pages - 1))%nat by lia.
  rewrite (fetch_loop_pages _ _ _ _ _ _ _ _ _ Hpages).
  rewrite (fetch_loop_rejected _ _ _ _ _ _ _ _ _ _ _ Hresp Hok).
  by eexists.
Qed.

(** C4. When, after any number of successful pages, a response has a status
    outside 200..299, [main] throws the error naming that status, the top
    level logs it, the process exits with status 1, and [events.json] is
    what it was before the run. *)
Theorem script_exits_1_on_rejected_response (w : World Server) base_id api_key
    pages st1 off1 bad st2 fuel :
  env w !! "AIRTABLE_API_KEY" = Some api_key -> api_key <> "" ->
  env w !! "AIRTABLE_BASE_ID" = Some base_id -> base_id <> "" ->
  pages_served base_id api_key (server (network w)) None pages st1 off1 ->
  respond st1 (request base_id api_key off1) = (bad, st2) ->
  ~ (200 <= status bad <= 299) ->
  (length pages < fuel)%nat ->
  exists w',
    script fuel w = Some (1, w')
    /\ events_json w' = events_json w
    /\ stderr w'
       = stderr w
         ++ [[LogString "Export failed:";
              LogError (Error ("Airtable API error: " +:+ Str.decimal (status bad)))]].
Proof.
  intros Hkey Hkey_ne Hbase Hbase_ne Hpages Hresp Hstatus Hfuel.
  apply ok_false_iff in Hstatus.
  destruct (main_rejected base_id api_key w pages st1 off1 bad st2 fuel
              Hpages Hresp Hstatus Hfuel) as [net' Hmain].
  unfold Script.script. rewrite Hkey, Hbase. unfold Js.truthy.
  rewrite !eqb_empty_false by done. cbn [negb orb template].
  rewrite Hmain. eexists. split; [reflexivity|]. by split.
Qed.

(** C5. When the API key or the base identifier is missing or empty, the
    process prints the diagnostic to the error stream and exits with status
    1; the network is untouched (nothing was sent, the endpoint was not
    consulted) and so is [events.json]. This needs no fuel. *)
Theorem script_exits_1_on_missing_configuration (w : World Server) fuel :
  (env w !! "AIRTABLE_API_KEY" = None \/ env w !! "AIRTABLE_API_KEY" = Some "")
  \/ (env w !! "AIRTABLE_BASE_ID" = None \/ env w !! "AIRTABLE_BASE_ID" = Some "") ->
  exists w',
    script fuel w = Some (1, w')
    /\ stderr w' = stderr w ++ [[LogString "Missing AIRTABLE_API_KEY or AIRTABLE_BASE_ID"]]
    /\ network w' = network w
    /\ events_json w' = events_json w.
Proof.
  intros Hmissing. unfold Script.script.
  assert (negb (Js.truthy (env w !! "AIRTABLE_API_KEY"))
          || negb (Js.truthy (env w !! "AIRTABLE_BASE_ID")) = true) as ->.
  { destruct Hmissing as [[-> | ->] | [-> | ->]]; cbn;
      by rewrite ?orb_true_r. }
  eexists. split; [reflexivity|]. by repeat split.
Qed.

End ProcessProofs.

Lemma two_pages_served :
  pages_served nat Sample.two_pages "appTEST" "keyTEST" 0%nat None
    [Sample.page_one] 1%nat (Some "itrA/rec2").
Proof. repeat econstructor. Qed.

Lemma fetchApprovedEvents_all_pages_witness :
  fetchApprovedEvents nat Sample.two_pages 2 "appTEST" "keyTEST" Sample.fresh_network
  = Some (Normal [Sample.evening_show; Sample.summer_jam; Sample.no_start],
          {| server := 2%nat;
             sent := [request "appTEST" "keyTEST" None;
                      request "appTEST" "keyTEST" (Some "itrA/rec2")] |})
  /\ map req_offset
       (requests_sent "appTEST" "keyTEST" None [Sample.page_one; Sample.page_two])
     = [None; Some "itrA/rec2"].
Proof.
  apply (fetchApprovedEvents_all_pages nat Sample.two_pages "appTEST" "keyTEST"
           Sample.fresh_network [Sample.page_one] 1%nat (Some "itrA/rec2")
           Sample.page_two 2%nat 2%nat).
  - exact two_pages_served.
  - reflexivity.
  - reflexivity.
  - reflexivity.
  - cbn. lia.
Defined.

Lemma script_exits_1_on_rejected_response_witness :
  exists w',
    script nat Sample.failing_second_page Sample.runtime 2 (Sample.world Sample.configured) = Some (1, w')
    /\ events_json w' = Some (Text "{}")
    /\ stderr w'
       = [[LogString "Export failed:"; LogError (Error "Airtable API error: 503")]].
Proof.
  apply (script_exits_1_on_rejected_response nat Sample.failing_second_page Sample.runtime
           (Sample.world Sample.configured) "appTEST" "keyTEST"
           [Sample.page_one] 1%nat (Some "itrA/rec2") Sample.server_error 2%nat 2%nat).
  - reflexivity.
  - discriminate.
  - reflexivity.
  - discriminate.
  - repeat econstructor.
  - reflexivity.
  - cbn. lia.
  - cbn. lia.
Defined.

Lemma script_exits_1_on_missing_configuration_witness :
  exists w',
    script nat Sample.two_pages Sample.runtime 0 (Sample.world Sample.key_only) = Some (1, w')
    /\ stderr w' = [[LogString "Missing AIRTABLE_API_KEY or AIRTABLE_BASE_ID"]]
    /\ network w' = Sample.fresh_network
    /\ events_json w' = Some (Text "{}").
Proof.
  apply (script_exits_1_on_missing_configuration nat Sample.two_pages Sample.runtime
           (Sample.world Sample.key_only) 0%nat).
  right. left. reflexivity.
Defined.

(** ** Whole runs on the sample endpoints *)

(** A run against the two-page endpoint exits with status 0, has sent two
    requests and has written the three events, the one without a [Start]
    included. *)
Example script_two_pages_run :
  exists w',
    script nat Sample.two_pages Sample.runtime 2 (Sample.world Sample.configured) = Some (0, w')
    /\ map req_offset (sent (network w')) = [None; Some "itrA/rec2"]
    /\ stderr w' = []
    /\ (exists output,
          events_json w' = Some (JsonText output)
          /\ map date (events output) = ["2024-03-15"; "2024-07-01"; "Invalid Date"]
          /\ map time (events output)
             = ["19:30" +:+ time_range_separator +:+ "21:00"; "19:00"; "Invalid Date"]
          /\ map type (events output) = ["show"; "workshop"; "show"]).
Proof.
  eexists. split; [vm_compute; reflexivity|].
  split; [reflexivity|]. split; [reflexivity|].
  eexists. split; [reflexivity|]. vm_compute. by repeat split.
Qed.

(** With an empty API key the run stops before the first request. *)
Example script_empty_key_run :
  exists w',
    script nat Sample.two_pages Sample.runtime 5 (Sample.world Sample.empty_key) = Some (1, w')
    /\ sent (network w') = [].
Proof. eexists. split; [vm_compute; reflexivity|]. reflexivity. Qed.

(** ** The calendar and the London clock on known instants *)

Example civil_2024_03_15 : civil_from_days 19797 = (2024, 3, 15).
Proof. reflexivity. Qed.

Example days_2024_03_15 : days_from_civil 2024 3 15 = 19797.
Proof. reflexivity. Qed.

Example civil_before_epoch : civil_from_days (-1) = (1969, 12, 31).
Proof. reflexivity. Qed.

Example february_2024_has_29_days : days_in_month 2024 2 = 29.
Proof. reflexivity. Qed.

Example MakeDay_month_before_january : MakeDay 2024 (-1) 1 = days_from_civil 2023 12 1.
Proof. reflexivity. Qed.

Example summer_time_2024 :
  civil_from_days (Day (bst_start 2024)) = (2024, 3, 31)
  /\ civil_from_days (Day (bst_end 2024)) = (2024, 10, 27).
Proof. vm_compute. by split. Qed.

Example parse_evening : parse_iso "2024-03-15T19:30:00.000Z" = Some 1710531000000.
Proof. vm_compute. reflexivity. Qed.

(** A string with a day past the end of its month is not of the form read
    here; what [new Date] makes of it is the engine's [Date_parse_other]. *)
Example parse_iso_leaves_30_february rt :
  parse_iso "2024-02-30T19:30:00.000Z" = None
  /\ new_Date_value rt (Some "2024-02-30T19:30:00.000Z")
     = Date_parse_other rt "2024-02-30T19:30:00.000Z".
Proof. split; vm_compute; reflexivity. Qed.

(** London before 1996: British Standard Time in January 1970, the end of
    summer time on 22 October 1995, and the transitions of 1972, 1981 and
    1990. *)
Example london_mid_january_1970 :
  parse_iso "1970-01-15T23:30:00.000Z" = Some 1294200000
  /\ london_offset 1294200000 = msPerHour
  /\ toLocaleDateString_enCA_London (Some 1294200000) = "1970-01-16"
  /\ toLocaleTimeString_enGB_London (Some 1294200000) = "00:30".
Proof. vm_compute. by repeat split. Qed.

Example london_late_october_1995 :
  parse_iso "1995-10-25T12:00:00.000Z" = Some 814622400000
  /\ london_offset 814622400000 = 0
  /\ toLocaleTimeString_enGB_London (Some 814622400000) = "12:00"
  /\ civil_from_days (Day (summer_end 1995)) = (1995, 10, 22).
Proof. vm_compute. by repeat split. Qed.

Example london_transitions_before_1996 :
  civil_from_days (Day british_standard_time_end) = (1971, 10, 31)
  /\ civil_from_days (Day (summer_start 1972)) = (1972, 3, 19)
  /\ civil_from_days (Day (summer_end 1972)) = (1972, 10, 29)
  /\ HourFromTime (summer_start 1972) = 2
  /\ civil_from_days (Day (summer_start 1981)) = (1981, 3, 29)
  /\ civil_from_days (Day (summer_end 1981)) = (1981, 10, 25)
  /\ HourFromTime (summer_end 1981) = 1
  /\ civil_from_days (Day (summer_end 1989)) = (1989, 10, 29)
  /\ civil_from_days (Day (summer_end 1990)) = (1990, 10, 28)
  /\ civil_from_days (Day (summer_start 1995)) = (1995, 3, 26)
  /\ civil_from_days (Day (summer_end 1996)) = (1996, 10, 27).
Proof. vm_compute. by repeat split. Qed.

(** Under British Standard Time the last half hour of January 1970 in UTC is
    already 1 February in London, as the half hour after it. *)
Example london_end_of_january_1970 :
  toLocaleDateString_enCA_London (parse_iso "1970-01-31T23:30:00.000Z") = "1970-02-01"
  /\ toLocaleDateString_enCA_London (parse_iso "1970-02-01T00:30:00.000Z") = "1970-02-01".
Proof. vm_compute. by split. Qed.

(** A process whose own zone is [Europe/London], in April: the local
    midnight of 1 March is read at the winter offset, and the threshold is
    1 March. *)
Example prevMonthStart_london_zone_april_2024 :
  prevMonthStart london_zone 1712750400000 = "2024-03-01".
Proof. vm_compute. reflexivity. Qed.

Example summer_evening_in_London :
  toLocaleTimeString_enGB_London (parse_iso "2024-07-01T18:00:00.000Z") = "19:00"
  /\ toLocaleDateString_enCA_London (parse_iso "2024-07-31T23:30:00.000Z") = "2024-08-01".
Proof. vm_compute. by split. Qed.

(** ** Further properties of the fetcher *)

Section FetchMore.

Variable Server : Type.
Variable respond : Server -> Request -> Response * Server.
Variables base_id api_key : string.

Local Abbreviation fetch_loop := (fetch_loop Server respond).
Local Abbreviation fetchApprovedEvents := (fetchApprovedEvents Server respond).
Local Abbreviation pages_served := (pages_served Server respond base_id api_key).

Lemma request_approved_sorted off :
  approved_sorted_request base_id api_key (request base_id api_key off).
Proof. by repeat split. Qed.

(** X1. Whatever the endpoint answers, when the fetcher ends it has only added
    requests to the log, at least one and at most one per unit of fuel, and
    each of them names the same base and table, asks for the records whose
    Status is Approved sorted by Start ascending, and carries the bearer
    credential. *)
Theorem fetch_loop_requests fuel net events off result net' :
  fetch_loop fuel base_id api_key net events off = Some (result, net') ->
  exists new,
    sent net' = sent net ++ new
    /\ (1 <= length new <= fuel)%nat
    /\ Forall (approved_sorted_request base_id api_key) new.
Proof.
  revert net events off. induction fuel as [|fuel IH]; intros net events off; [done|].
  cbn [Script.fetch_loop]. unfold fetch.
  destruct (respond (server net) (request base_id api_key off)) as [response st'].
  destruct (negb (ok response)).
  - intros [= _ <-]. exists [request base_id api_key off]. cbn [sent length].
    split; [done|]. split; [lia|].
    constructor; [apply request_approved_sorted | constructor].
  - destruct (Js.truthy (offset response)).
    + intros Hrec. apply IH in Hrec as (new & Hsent & Hlen & Hall).
      cbn [sent] in Hsent. exists (request base_id api_key off :: new).
      split; [by rewrite Hsent, <- app_assoc|].
      cbn [length]. split; [lia|].
      constructor; [apply request_approved_sorted | done].
    + intros [= _ <-]. exists [request base_id api_key off]. cbn [sent length].
      split; [done|]. split; [lia|].
      constructor; [apply request_approved_sorted | constructor].
Qed.

(** X2. A rejected response ends the fetch at once: the records of the pages
    before it are dropped, the failing request is the last one sent (no
    retry), and the endpoint is left as that response left it. *)
Theorem fetchApprovedEvents_rejected_stops (net : Network Server)
    pages st1 off1 bad st2 fuel :
  pages_served (server net) None pages st1 off1 ->
  respond st1 (request base_id api_key off1) = (bad, st2) ->
  ok bad = false ->
  (length pages < fuel)%nat ->
  fetchApprovedEvents fuel base_id api_key net
  = Some (Throw (Error ("Airtable API error: " +:+ Str.decimal (status bad))),
          {| server := st2;
             sent := sent net ++ requests_sent base_id api_key None pages
                     ++ [request base_id api_key off1] |}).
Proof.
  intros Hpages Hresp Hok Hfuel.
  unfold Script.fetchApprovedEvents. destruct net as [st log]. cbn [server sent] in *.
  replace fuel with (length pages + S (fuel - length pages - 1))%nat by lia.
  rewrite (fetch_loop_pages _ _ _ _ _ _ _ _ _ Hpages).
  rewrite (fetch_loop_rejected _ _ _ _ _ _ _ _ _ _ _ Hresp Hok).
  by rewrite <- app_assoc.
Qed.

End FetchMore.

Lemma fetch_loop_requests_witness :
  exists new,
    sent {| server := 2%nat;
            sent := [request "appTEST" "keyTEST" None;
                     request "appTEST" "keyTEST" (Some "itrA/rec2")] |}
    = sent Sample.fresh_network ++ new
    /\ (1 <= length new <= 2)%nat
    /\ Forall (approved_sorted_request "appTEST" "keyTEST") new.
Proof.
  apply (fetch_loop_requests nat Sample.two_pages "appTEST" "keyTEST" 2
           Sample.fresh_network [] None
           (Normal [Sample.evening_show; Sample.summer_jam; Sample.no_start])).
  reflexivity.
Defined.

Lemma fetchApprovedEvents_rejected_stops_witness :
  fetchApprovedEvents nat Sample.failing_second_page 5 "appTEST" "keyTEST"
    Sample.fresh_network
  = Some (Throw (Error "Airtable API error: 503"),
          {| server := 2%nat;
             sent := [request "appTEST" "keyTEST" None;
                      request "appTEST" "keyTEST" (Some "itrA/rec2")] |}).
Proof.
  apply (fetchApprovedEvents_rejected_stops nat Sample.failing_second_page
           "appTEST" "keyTEST" Sample.fresh_network
           [Sample.page_one] 1%nat (Some "itrA/rec2") Sample.server_error 2%nat 5%nat).
  - repeat econstructor.
  - reflexivity.
  - reflexivity.
  - cbn. lia.
Defined.

(** ** Whole runs *)

Section RunProofs.

Variable Server : Type.
Variable respond : Server -> Request -> Response * Server.
Variable rt : Runtime.

Local Abbreviation fetchApprovedEvents := (fetchApprovedEvents Server respond).
Local Abbreviation pages_served := (pages_served Server respond).
Local Abbreviation main := (main Server respond rt).
Local Abbreviation script := (script Server respond rt).

(** [main] leaves the environment and the error stream alone. It throws
    with the file untouched, or throws the error of a failed write with the
    file as that write left it, or returns after overwriting the file with
    an envelope stamped with the write time. *)
Lemma main_outcomes fuel base_id api_key (w : World Server) completion w' :
  main fuel base_id api_key w = Some (completion, w') ->
  env w' = env w /\ stderr w' = stderr w
  /\ ((exists e, completion = Throw e
                 /\ (events_json w' = events_json w
                     \/ exists remains, write_result w = WriteFails e remains
                                        /\ events_json w' = remains))
      \/ completion = Normal tt
         /\ write_result w = Written
         /\ exists output, events_json w' = Some (JsonText output)
                           /\ lastUpdated output = write_time w).
Proof.
  unfold Script.main.
  destruct (fetchApprovedEvents fuel base_id api_key (network w))
    as [[[records | e] net']|]; [| |done].
  - unfold writeFileSync. cbn [write_result set_network].
    destruct (write_result w) as [|e remains] eqn:Hwrite.
    + intros [= <- <-]. cbn. split; [done|]. split; [done|]. right.
      split; [done|]. split; [done|]. by eexists.
    + intros [= <- <-]. cbn. split; [done|]. split; [done|]. left.
      exists e. split; [done|]. right. by exists remains.
  - intros [= <- <-]. cbn. split; [done|]. split; [done|]. left.
    exists e. split; [done|]. by left.
Qed.

(** X4. All or nothing, but for a failed write. Whenever the process ends, it
    ends with status 0 or 1. With status 0 the write succeeded, nothing was
    written to the error stream and [events.json] holds a fresh envelope
    stamped with the write time. With status 1 the error stream has grown by
    exactly one line, and [events.json] is what it was before the run unless
    the write itself threw: then the file is as the failed write left it and
    the line reports the error of the write. The environment is never
    changed. *)
Theorem script_all_or_nothing fuel (w : World Server) code w' :
  script fuel w = Some (code, w') ->
  env w' = env w
  /\ (code = 0 /\ stderr w' = stderr w /\ write_result w = Written
      /\ (exists output, events_json w' = Some (JsonText output)
                         /\ lastUpdated output = write_time w)
      \/ code = 1
         /\ (exists line, stderr w' = stderr w ++ [line])
         /\ (events_json w' = events_json w
             \/ exists e remains,
                  write_result w = WriteFails e remains
                  /\ events_json w' = remains
                  /\ stderr w' = stderr w ++ [[LogString "Export failed:"; LogError e]])).
Proof.
  unfold Script.script.
  destruct (negb (Js.truthy (env w !! "AIRTABLE_API_KEY"))
            || negb (Js.truthy (env w !! "AIRTABLE_BASE_ID"))).
  - intros [= <- <-]. cbn. split; [done|]. right. split; [done|].
    split; [by eexists | by left].
  - destruct (main fuel _ _ w) as [[completion w1]|] eqn:Hmain; [|done].
    apply main_outcomes in Hmain as (Henv & Herr & Hcases).
    destruct Hcases as [(e & -> & Hfile) | (-> & Hwrite & Hfile)].
    + intros [= <- <-]. cbn. split; [done|]. right. split; [done|].
      rewrite Herr. split; [by eexists|].
      destruct Hfile as [Hfile | (remains & Hwrite & Hfile)]; [by left|].
      right. by exists e, remains.
    + intros [= <- <-]. split; [done|]. left. by repeat split.
Qed.

Lemma main_all_pages base_id api_key (w : World Server) pages st1 off1 last st2 fuel :
  write_result w = Written ->
  pages_served base_id api_key (server (network w)) None pages st1 off1 ->
  respond st1 (request base_id api_key off1) = (last, st2) ->
  ok last = true ->
  Js.truthy (offset last) = false ->
  (length pages < fuel)%nat ->
  exists w',
    main fuel base_id api_key w = Some (Normal tt, w')
    /\ events_json w'
       = Some (JsonText
                 {| lastUpdated := write_time w;
                    events :=
                      recentAndFutureEvents (prevMonthStart (tza w) (now w))
                        (map (transformEvent rt) (concat (map records (pages ++ [last])))) |})
    /\ stderr w' = stderr w
    /\ network w'
       = {| server := st2;
            sent := sent (network w)
                    ++ requests_sent base_id api_key None (pages ++ [last]) |}.
Proof.
  intros Hwrite Hpages Hresp Hok Htok Hfuel. unfold Script.main.
  destruct (network w) as [st log] eqn:Hnet. cbn [server sent] in *.
  unfold Script.fetchApprovedEvents.
  replace fuel with (length pages + S (fuel - length pages - 1))%nat by lia.
  rewrite (fetch_loop_pages _ _ _ _ _ _ _ _ _ Hpages).
  rewrite (fetch_loop_last _ _ _ _ _ _ _ _ _ _ _ Hresp Hok Htok).
  rewrite (requests_sent_snoc _ _ _ _ _ _ _ _ _ last Hpages).
  assert (concat (map records (pages ++ [last]))
          = concat (map records pages) ++ records last) as ->.
  { rewrite map_app, concat_app. cbn [map concat]. by rewrite app_nil_r. }
  unfold writeFileSync. cbn [write_result set_network]. rewrite Hwrite.
  eexists. split; [reflexivity|]. cbn. by rewrite <- app_assoc.
Qed.

Lemma script_configured fuel (w : World Server) base_id api_key :
  env w !! "AIRTABLE_API_KEY" = Some api_key -> api_key <> "" ->
  env w !! "AIRTABLE_BASE_ID" = Some base_id -> base_id <> "" ->
  script fuel w
  = match main fuel base_id api_key w with
    | None => None
    | Some (Normal _, w') => Some (0, w')
    | Some (Throw err, w') =>
        Some (1, console_error Server w' [LogString "Export failed:"; LogError err])
    end.
Proof.
  intros Hkey Hkey_ne Hbase Hbase_ne. unfold Script.script.
  rewrite Hkey, Hbase. unfold Js.truthy. by rewrite !eqb_empty_false.
Qed.

(** X5. A complete run. With both credentials set, an endpoint that serves
    its pages and then a last page without a token, and a file system that
    accepts the write, the process exits with status 0, prints nothing to
    the error stream, and replaces [events.json], whatever it held, by the
    envelope of the transformed records of all pages, in order, that pass
    the date filter. *)
Theorem script_writes_filtered_events (w : World Server) base_id api_key
    pages st1 off1 last st2 fuel :
  env w !! "AIRTABLE_API_KEY" = Some api_key -> api_key <> "" ->
  env w !! "AIRTABLE_BASE_ID" = Some base_id -> base_id <> "" ->
  write_result w = Written ->
  pages_served base_id api_key (server (network w)) None pages st1 off1 ->
  respond st1 (request base_id api_key off1) = (last, st2) ->
  ok last = true ->
  Js.truthy (offset last) = false ->
  (length pages < fuel)%nat ->
  exists w',
    script fuel w = Some (0, w')
    /\ events_json w'
       = Some (JsonText
                 {| lastUpdated := write_time w;
                    events :=
                      recentAndFutureEvents (prevMonthStart (tza w) (now w))
                        (map (transformEvent rt) (concat (map records (pages ++ [last])))) |})
    /\ stderr w' = stderr w.
Proof.
  intros Hkey Hkey_ne Hbase Hbase_ne Hwrite Hpages Hresp Hok Htok Hfuel.
  destruct (main_all_pages base_id api_key w pages st1 off1 last st2 fuel
              Hwrite Hpages Hresp Hok Htok Hfuel) as (w' & Hmain & Hfile & Herr & _).
  exists w'. rewrite (script_configured fuel w base_id api_key) by done.
  by rewrite Hmain.
Qed.

(** X6. A run that finds nothing to keep still replaces the file. When no
    fetched record passes the date filter (in particular when the endpoint
    has no record at all) and the file system accepts the write, the process
    exits with status 0 and [events.json], whatever it held, becomes an
    envelope with an empty event list. *)
Theorem script_overwrites_with_no_events (w : World Server) base_id api_key
    pages st1 off1 last st2 fuel :
  env w !! "AIRTABLE_API_KEY" = Some api_key -> api_key <> "" ->
  env w !! "AIRTABLE_BASE_ID" = Some base_id -> base_id <> "" ->
  write_result w = Written ->
  pages_served base_id api_key (server (network w)) None pages st1 off1 ->
  respond st1 (request base_id api_key off1) = (last, st2) ->
  ok last = true ->
  Js.truthy (offset last) = false ->
  (length pages < fuel)%nat ->
  Forall (fun record =>
            Str.ge (date (transformEvent rt record)) (prevMonthStart (tza w) (now w)) = false)
         (concat (map records (pages ++ [last]))) ->
  exists w',
    script fuel w = Some (0, w')
    /\ events_json w' = Some (JsonText {| lastUpdated := write_time w; events := [] |}).
Proof.
  intros Hkey Hkey_ne Hbase Hbase_ne Hwrite Hpages Hresp Hok Htok Hfuel Hnone.
  destruct (main_all_pages base_id api_key w pages st1 off1 last st2 fuel
              Hwrite Hpages Hresp Hok Htok Hfuel) as (w' & Hmain & Hfile & _).
  exists w'. rewrite (script_configured fuel w base_id api_key) by done.
  rewrite Hmain. split; [done|]. rewrite Hfile. do 3 f_equal.
  clear Hfile Hmain. unfold recentAndFutureEvents.
  induction Hnone as [|record rest Hrec _ IH]; [done|].
  cbn [map]. rewrite filter_cons_False; [exact IH|]. rewrite Hrec. exact (fun H => H).
Qed.

End RunProofs.

Lemma script_all_or_nothing_witness :
  exists code w',
    script nat Sample.two_pages Sample.runtime 2
      (Sample.world_with_full_disk Sample.configured) = Some (code, w')
    /\ env w' = Sample.configured
    /\ (code = 0 /\ stderr w' = []
        /\ write_result (Sample.world_with_full_disk Sample.configured) = Written
        /\ (exists output, events_json w' = Some (JsonText output)
                           /\ lastUpdated output = Sample.noon_10_march_2024 + 1500)
        \/ code = 1
           /\ (exists line, stderr w' = [] ++ [line])
           /\ (events_json w' = Some (Text "{}")
               \/ exists e remains,
                    write_result (Sample.world_with_full_disk Sample.configured)
                    = WriteFails e remains
                    /\ events_json w' = remains
                    /\ stderr w' = [] ++ [[LogString "Export failed:"; LogError e]])).
Proof.
  destruct (script nat Sample.two_pages Sample.runtime 2
              (Sample.world_with_full_disk Sample.configured))
    as [[code w']|] eqn:Hrun; [|vm_compute in Hrun; discriminate Hrun].
  exists code, w'. split; [reflexivity|].
  exact (script_all_or_nothing nat Sample.two_pages Sample.runtime 2
           (Sample.world_with_full_disk Sample.configured) code w' Hrun).
Defined.

(** On a full disk the run against the two-page endpoint exits with status 1
    after both requests, reports the error of the write, and leaves
    [events.json] emptied. *)
Example script_full_disk_run :
  exists w',
    script nat Sample.two_pages Sample.runtime 2
      (Sample.world_with_full_disk Sample.configured) = Some (1, w')
    /\ map req_offset (sent (network w')) = [None; Some "itrA/rec2"]
    /\ events_json w' = Some (Text "")
    /\ stderr w' = [[LogString "Export failed:"; LogError Sample.disk_full]].
Proof. eexists. split; [vm_compute; reflexivity|]. by repeat split. Qed.

Lemma script_writes_filtered_events_witness :
  exists w',
    script nat Sample.two_pages Sample.runtime 2 (Sample.world Sample.configured) = Some (0, w')
    /\ events_json w'
       = Some (JsonText
                 {| lastUpdated := Sample.noon_10_march_2024 + 1500;
                    events :=
                      recentAndFutureEvents (prevMonthStart 0 Sample.noon_10_march_2024)
                        (map (transformEvent Sample.runtime)
                           (concat (map records [Sample.page_one; Sample.page_two]))) |})
    /\ stderr w' = [].
Proof.
  apply (script_writes_filtered_events nat Sample.two_pages Sample.runtime
           (Sample.world Sample.configured) "appTEST" "keyTEST"
           [Sample.page_one] 1%nat (Some "itrA/rec2") Sample.page_two 2%nat 2%nat).
  - reflexivity.
  - discriminate.
  - reflexivity.
  - discriminate.
  - reflexivity.
  - repeat econstructor.
  - reflexivity.
  - reflexivity.
  - reflexivity.
  - cbn. lia.
Defined.

Lemma script_overwrites_with_no_events_witness :
  (exists w',
     script nat Endpoints.no_records Sample.runtime 1 (Sample.world Sample.configured) = Some (0, w')
     /\ events_json w'
        = Some (JsonText {| lastUpdated := Sample.noon_10_march_2024 + 1500;
                            events := [] |}))
  /\ (exists w',
        script nat Endpoints.old_records Sample.runtime 1 (Sample.world Sample.configured) = Some (0, w')
        /\ events_json w'
           = Some (JsonText {| lastUpdated := Sample.noon_10_march_2024 + 1500;
                               events := [] |})).
Proof.
  split.
  - apply (script_overwrites_with_no_events nat Endpoints.no_records Sample.runtime
             (Sample.world Sample.configured) "appTEST" "keyTEST"
             [] 0%nat None Endpoints.empty_page 1%nat 1%nat);
      try reflexivity; try discriminate; try (cbn; lia).
    + constructor.
    + constructor.
  - apply (script_overwrites_with_no_events nat Endpoints.old_records Sample.runtime
             (Sample.world Sample.configured) "appTEST" "keyTEST"
             [] 0%nat None Endpoints.old_page 1%nat 1%nat);
      try reflexivity; try discriminate; try (cbn; lia).
    + constructor.
    + constructor; [vm_compute; reflexivity | constructor].
Defined.

(** ** Further properties of the transformer *)

(** X7. The transformer reads seven fields and nothing else: two records that
    agree on Start, End, Title, Venue, Type, Tickets URL and Event URL give
    the same event, whatever their identifiers and other fields are; and the
    description of every event is empty. *)
Theorem transformEvent_reads_named_fields rt record1 record2 :
  Forall (fun k => fields record1 !! k = fields record2 !! k)
         ["Start"; "End"; "Title"; "Venue"; "Type"; "Tickets URL"; "Event URL"] ->
  transformEvent rt record1 = transformEvent rt record2
  /\ description (transformEvent rt record1) = "".
Proof.
  intros Hsame. split; [|done].
  repeat match goal with
         | H : Forall _ (_ :: _) |- _ => apply Forall_cons_1 in H as [? H]
         end.
  unfold transformEvent. by repeat match goal with H : _ !! _ = _ |- _ => rewrite H; clear H end.
Qed.

Lemma transformEvent_reads_named_fields_witness :
  transformEvent Sample.runtime Endpoints.annotated_show
  = transformEvent Sample.runtime Sample.evening_show
  /\ description (transformEvent Sample.runtime Endpoints.annotated_show) = "".
Proof.
  apply (transformEvent_reads_named_fields Sample.runtime
           Endpoints.annotated_show Sample.evening_show).
  repeat (constructor; [reflexivity|]). constructor.
Defined.

(** X8. Title and venue are copied as they are: the event's title is the Title
    field whenever the record has one, and the empty string when it has
    none; likewise for the venue. *)
Theorem transformEvent_title_venue rt record :
  (forall s, fields record !! "Title" = Some s -> title (transformEvent rt record) = s)
  /\ (fields record !! "Title" = None -> title (transformEvent rt record) = "")
  /\ (forall s, fields record !! "Venue" = Some s -> venue (transformEvent rt record) = s)
  /\ (fields record !! "Venue" = None -> venue (transformEvent rt record) = "").
Proof.
  cbn [transformEvent title venue]. repeat split.
  - intros s ->. cbn. by destruct (String.eqb_spec s "").
  - by intros ->.
  - intros s ->. cbn. by destruct (String.eqb_spec s "").
  - by intros ->.
Qed.

Lemma transformEvent_title_venue_witness :
  title (transformEvent Sample.runtime Sample.summer_jam) = "Jam"
  /\ venue (transformEvent Sample.runtime Sample.summer_jam) = "".
Proof.
  destruct (transformEvent_title_venue Sample.runtime Sample.summer_jam)
    as (Htitle & _ & _ & Hvenue).
  split; [apply Htitle | apply Hvenue]; reflexivity.
Defined.

(** ** A run that cannot end *)

(** X3. The fetcher puts no bound on the number of pages: with both credentials
    set and an endpoint whose every response is successful and carries a
    continuation token, the process never ends, however many requests it is
    allowed; it never exits and never writes the file. *)
Theorem script_never_ends (Server : Type)
    (respond : Server -> Request -> Response * Server) (rt : Runtime)
    (w : World Server) base_id api_key fuel :
  env w !! "AIRTABLE_API_KEY" = Some api_key -> api_key <> "" ->
  env w !! "AIRTABLE_BASE_ID" = Some base_id -> base_id <> "" ->
  (forall st req, ok (respond st req).1 = true
                  /\ Js.truthy (offset (respond st req).1) = true) ->
  script Server respond rt fuel w = None.
Proof.
  intros Hkey Hkey_ne Hbase Hbase_ne Hmore.
  rewrite (script_configured Server respond rt fuel w base_id api_key) by done.
  unfold main, fetchApprovedEvents.
  by rewrite (fetch_loop_endless Server respond base_id api_key fuel _ _ _ Hmore).
Qed.

Lemma script_never_ends_witness :
  script nat Endpoints.always_more Sample.runtime 1000 (Sample.world Sample.configured) = None.
Proof.
  apply (script_never_ends nat Endpoints.always_more Sample.runtime
           (Sample.world Sample.configured)
           "appTEST" "keyTEST" 1000%nat).
  - reflexivity.
  - discriminate.
  - reflexivity.
  - discriminate.
  - intros st req. split; reflexivity.
Defined.

(** ** Dates as strings: order *)

Lemma digit_char_compare i j :
  0 <= i <= 9 -> 0 <= j <= 9 ->
  Ascii.compare (Str.digit_char i) (Str.digit_char j) = (i ?= j).
Proof.
  intros Hi Hj.
  assert (i = 0 \/ i = 1 \/ i = 2 \/ i = 3 \/ i = 4 \/ i = 5 \/ i = 6 \/ i = 7
          \/ i = 8 \/ i = 9) as Hic by lia.
  assert (j = 0 \/ j = 1 \/ j = 2 \/ j = 3 \/ j = 4 \/ j = 5 \/ j = 6 \/ j = 7
          \/ j = 8 \/ j = 9) as Hjc by lia.
  repeat (destruct Hic as [-> | Hic]);
    repeat (destruct Hjc as [-> | Hjc]); subst; reflexivity.
Qed.

(** Two zero-padded two-digit fields compare as their numbers do. *)
Lemma pad2_compare a b (s t : string) :
  0 <= a <= 99 -> 0 <= b <= 99 ->
  String.compare (Str.pad2 a +:+ s) (Str.pad2 b +:+ t)
  = match a ?= b with
    | Eq => String.compare s t
    | c => c
    end.
Proof.
  intros Ha Hb. unfold Str.pad2. rewrite !append_String. cbn [String.compare].
  rewrite !digit_char_compare
    by (pose proof (Z.mod_pos_bound a 10); pose proof (Z.mod_pos_bound b 10);
        pose proof (Z.mod_pos_bound (a / 10) 10);
        pose proof (Z.mod_pos_bound (b / 10) 10); lia).
  destruct (Z.compare_spec (a / 10 mod 10) (b / 10 mod 10)) as [H1 | H1 | H1];
    destruct (Z.compare_spec (a mod 10) (b mod 10)) as [H2 | H2 | H2];
    destruct (Z.compare_spec a b) as [H3 | H3 | H3];
    try reflexivity; exfalso; revert H1 H2 H3; Z.div_mod_to_equations; lia.
Qed.

(** A year of four digits prints as two two-digit fields. *)
Lemma decimal_four_digits y :
  1000 <= y <= 9999 -> Str.decimal y = Str.pad2 (y / 100) +:+ Str.pad2 (y mod 100).
Proof.
  intros Hy. unfold Str.decimal.
  assert (9 <= Z.log2 y) as Hlog.
  { change 9 with (Z.log2 1000). apply Z.log2_le_mono. lia. }
  destruct (Z.to_nat (Z.log2 y)) as [|[|[|[|fuel]]]] eqn:Hfuel; try lia.
  cbn [Str.decimal_go].
  replace (y / 10 =? 0) with false by (symmetry; apply Z.eqb_neq; Z.div_mod_to_equations; lia).
  replace (y / 10 / 10 =? 0) with false
    by (symmetry; apply Z.eqb_neq; Z.div_mod_to_equations; lia).
  replace (y / 10 / 10 / 10 =? 0) with false
    by (symmetry; apply Z.eqb_neq; Z.div_mod_to_equations; lia).
  replace (y / 10 / 10 / 10 / 10 =? 0) with true
    by (symmetry; apply Z.eqb_eq; Z.div_mod_to_equations; lia).
  unfold Str.pad2. rewrite !append_String.
  change ("" +:+ ?x) with x.
  repeat (f_equal; [f_equal; Z.div_mod_to_equations; lia|]).
  do 2 f_equal. Z.div_mod_to_equations; lia.
Qed.

Lemma append_assoc_str (a b c : string) : (a +:+ b) +:+ c = a +:+ (b +:+ c).
Proof. induction a as [|x a IH]; [done|]. rewrite !append_String. by rewrite IH. Qed.

Lemma append_empty_r (a : string) : a +:+ "" = a.
Proof. induction a as [|x a IH]; [done|]. rewrite append_String. by rewrite IH. Qed.

Lemma dash_compare (a b : string) :
  String.compare ("-" +:+ a) ("-" +:+ b) = String.compare a b.
Proof. reflexivity. Qed.

(** The string order of two formatted dates is the order of their
    [YYYYMMDD] numbers, for years of four digits. *)
Lemma format_ymd_compare y1 m1 d1 y2 m2 d2 :
  1000 <= y1 <= 9999 -> 1000 <= y2 <= 9999 ->
  0 <= m1 <= 99 -> 0 <= m2 <= 99 -> 0 <= d1 <= 99 -> 0 <= d2 <= 99 ->
  String.compare (format_ymd y1 m1 d1) (format_ymd y2 m2 d2)
  = (DateOrder.ymd_num (y1, m1, d1) ?= DateOrder.ymd_num (y2, m2, d2)).
Proof.
  intros Hy1 Hy2 Hm1 Hm2 Hd1 Hd2. unfold format_ymd, year_of_era.
  replace (y1 >? 0) with true by (symmetry; apply Z.gtb_lt; lia).
  replace (y2 >? 0) with true by (symmetry; apply Z.gtb_lt; lia).
  rewrite !decimal_four_digits by done. rewrite !append_assoc_str.
  rewrite <- (append_empty_r (Str.pad2 d1)), <- (append_empty_r (Str.pad2 d2)).
  rewrite pad2_compare by (Z.div_mod_to_equations; lia).
  rewrite pad2_compare by (Z.div_mod_to_equations; lia).
  rewrite dash_compare, pad2_compare by lia.
  rewrite dash_compare, pad2_compare by lia.
  cbn [String.compare DateOrder.ymd_num].
  destruct (Z.compare_spec (y1 / 100) (y2 / 100)) as [H1 | H1 | H1];
    destruct (Z.compare_spec (y1 mod 100) (y2 mod 100)) as [H2 | H2 | H2];
    destruct (Z.compare_spec m1 m2) as [H3 | H3 | H3];
    destruct (Z.compare_spec d1 d2) as [H4 | H4 | H4];
    symmetry; first [apply Z.compare_eq_iff | apply Z.compare_lt_iff | apply Z.compare_gt_iff];
    revert H1 H2; Z.div_mod_to_equations; lia.
Qed.

(** X9. For years of four digits the string order of two dates in the form the
    date formatter gives them is their calendar order: first by year, then
    by month, then by day. *)
Theorem date_strings_order y1 m1 d1 y2 m2 d2 :
  1000 <= y1 <= 9999 -> 1000 <= y2 <= 9999 ->
  1 <= m1 <= 12 -> 1 <= m2 <= 12 -> 1 <= d1 <= 31 -> 1 <= d2 <= 31 ->
  Str.ge (format_ymd y1 m1 d1) (format_ymd y2 m2 d2) = true
  <-> y2 < y1 \/ (y2 = y1 /\ (m2 < m1 \/ (m2 = m1 /\ d2 <= d1))).
Proof.
  intros Hy1 Hy2 Hm1 Hm2 Hd1 Hd2. unfold Str.ge.
  rewrite format_ymd_compare by lia. cbn [DateOrder.ymd_num].
  destruct (Z.compare_spec (y1 * 10000 + m1 * 100 + d1) (y2 * 10000 + m2 * 100 + d2));
    split; intros; try done; lia.
Qed.

Lemma date_strings_order_witness :
  Str.ge (format_ymd 2024 2 1) (format_ymd 2024 1 31) = true
  <-> 2024 < 2024 \/ (2024 = 2024 /\ (1 < 2 \/ (1 = 2 /\ 31 <= 1))).
Proof. apply (date_strings_order 2024 2 1 2024 1 31); lia. Defined.

Lemma days_from_civil_day y m d :
  days_from_civil y m d = days_from_civil y m 1 + d - 1.
Proof. unfold days_from_civil. lia. Qed.

Lemma months_days_1970_2099_ok y m :
  1970 <= y <= 2099 -> 1 <= m <= 12 -> DateCheck.month_days_ok y m = true.
Proof.
  intros Hy Hm.
  assert (CalendarCheck.all_from
            (fun y => CalendarCheck.all_from (DateCheck.month_days_ok y) 12 1) 130 1970
          = true) as Hall by vm_cast_no_check (eq_refl true).
  assert (CalendarCheck.all_from (DateCheck.month_days_ok y) 12 1 = true) as Hyear
    by (apply (all_from_spec _ _ _ y Hall); clear - Hy; lia).
  clear Hall. apply (all_from_spec _ _ _ m Hyear). clear - Hm. lia.
Qed.

Lemma month_length_1970_2099 y m :
  1970 <= y <= 2099 -> 1 <= m <= 12 -> 1 <= days_in_month y m <= 31.
Proof.
  intros Hy Hm. pose proof (months_days_1970_2099_ok y m Hy Hm) as Hok.
  unfold DateCheck.month_days_ok in Hok.
  apply andb_true_iff in Hok as [Hok _].
  rewrite !andb_true_iff, !Z.leb_le in Hok. clear - Hok. lia.
Qed.

(** Every date of the years 1970..2099 maps to a day number that maps back
    to it. *)
Lemma dates_1970_2099_ok y m d :
  1970 <= y <= 2099 -> 1 <= m <= 12 -> 1 <= d <= days_in_month y m ->
  civil_from_days (days_from_civil y m d) = (y, m, d)
  /\ 0 <= days_from_civil y m d < 47482.
Proof.
  intros Hy Hm Hd. pose proof (months_days_1970_2099_ok y m Hy Hm) as Hok.
  unfold DateCheck.month_days_ok in Hok.
  apply andb_true_iff in Hok as [Hok Hdays].
  rewrite !andb_true_iff, !Z.leb_le in Hok.
  destruct Hok as [[[Hlen1 Hlen31] Hlo] Hhi].
  assert ((if d <=? days_in_month y m then
             let '(y', m', d') := civil_from_days (days_from_civil y m 1 + d - 1) in
             (y' =? y) && (m' =? m) && (d' =? d)
           else true) = true) as Hday
    by (apply (all_from_spec _ _ _ d Hdays); clear - Hd Hlen31; lia).
  clear Hdays.
  replace (d <=? days_in_month y m) with true in Hday
    by (symmetry; apply Z.leb_le; clear - Hd; lia).
  rewrite (days_from_civil_day y m d).
  destruct (civil_from_days (days_from_civil y m 1 + d - 1)) as [[y' m'] d'].
  rewrite !andb_true_iff, !Z.eqb_eq in Hday. destruct Hday as [[-> ->] ->].
  split; [done|]. clear - Hd Hlo Hhi. lia.
Qed.

(** From one day to the next the civil date grows: within a month by one
    day, at its end to the first day of the next month. *)
Lemma civil_next_day d y m dd :
  0 <= d < 47482 -> civil_from_days d = (y, m, dd) ->
  1970 <= y <= 2099 /\ 1 <= m <= 12 /\ 1 <= dd <= 31
  /\ DateOrder.ymd_num (y, m, dd) < DateOrder.ymd_num (civil_from_days (d + 1)).
Proof.
  intros Hd Hciv. pose proof (days_1970_2099_ok d Hd) as Hok.
  unfold CalendarCheck.day_ok in Hok. rewrite Hciv in Hok.
  rewrite !andb_true_iff, !Z.leb_le, Z.eqb_eq in Hok.
  destruct Hok as [[[[[[Hy1 Hy2] Hm1] Hm2] Hdd1] Hdd2] Hback].
  pose proof (month_length_1970_2099 y m ltac:(lia) ltac:(lia)) as Hlen.
  repeat (split; [lia|]).
  rewrite (days_from_civil_day y m dd) in Hback.
  destruct (Z.lt_ge_cases dd (days_in_month y m)) as [Hmid | Hend].
  - destruct (dates_1970_2099_ok y m (dd + 1)) as [Hnext _]; try lia.
    rewrite (days_from_civil_day y m (dd + 1)) in Hnext.
    replace (days_from_civil y m 1 + (dd + 1) - 1) with (d + 1) in Hnext by lia.
    rewrite Hnext. cbn [DateOrder.ymd_num]. lia.
  - assert (dd = days_in_month y m) as Hlast by lia.
    assert (d + 1
            = days_from_civil (if m =? 12 then y + 1 else y)
                              (if m =? 12 then 1 else m + 1) 1) as Hfirst
      by (unfold days_in_month in Hlast; lia).
    destruct (Z.eqb_spec m 12) as [-> | Hm12].
    + destruct (decide (y = 2099)) as [-> | Hy99].
      * rewrite Hfirst.
        assert (civil_from_days (days_from_civil (2099 + 1) 1 1) = (2100, 1, 1)) as ->
          by (vm_compute; reflexivity).
        cbn [DateOrder.ymd_num]. lia.
      * destruct (dates_1970_2099_ok (y + 1) 1 1) as [Hnext _]; try lia.
        { pose proof (month_length_1970_2099 (y + 1) 1). lia. }
        rewrite Hfirst, Hnext. cbn [DateOrder.ymd_num]. lia.
    + destruct (dates_1970_2099_ok y (m + 1) 1) as [Hnext _]; try lia.
      { pose proof (month_length_1970_2099 y (m + 1)). lia. }
      rewrite Hfirst, Hnext. cbn [DateOrder.ymd_num]. lia.
Qed.

Lemma day_steps_ok d :
  DateOrder.first_day <= d < 47482 -> DateOrder.day_step_ok d = true.
Proof.
  intros Hd. destruct (Z.lt_ge_cases d 0) as [Hneg | Hpos].
  - assert (CalendarCheck.all_from DateOrder.day_step_ok DateOrder.day_count
              DateOrder.first_day = true) as Hall by vm_cast_no_check (eq_refl true).
    apply (all_from_spec _ _ _ d Hall).
    unfold DateOrder.day_count, DateOrder.first_day in *. clear - Hd Hneg. lia.
  - unfold DateOrder.day_step_ok.
    destruct (civil_from_days d) as [[y m] dd] eqn:Hciv.
    destruct (civil_next_day d y m dd ltac:(lia) Hciv) as (Hy & Hm & Hdd & Hlt).
    rewrite !andb_true_iff, !Z.leb_le, Z.ltb_lt. repeat split; lia.
Qed.

Lemma civil_four_digits d :
  DateOrder.first_day <= d < 47482 ->
  let '(y, m, dd) := civil_from_days d in
  1000 <= y <= 9999 /\ 1 <= m <= 12 /\ 1 <= dd <= 31.
Proof.
  intros Hd. pose proof (day_steps_ok d Hd) as Hok.
  unfold DateOrder.day_step_ok in Hok.
  destruct (civil_from_days d) as [[y m] dd].
  rewrite !andb_true_iff in Hok. lia.
Qed.

(** Over the checked days the [YYYYMMDD] number grows with the day. *)
Lemma civil_num_grows n d :
  DateOrder.first_day <= d -> d + Z.of_nat n <= 47482 ->
  DateOrder.ymd_num (civil_from_days d) + Z.of_nat n
  <= DateOrder.ymd_num (civil_from_days (d + Z.of_nat n)).
Proof.
  induction n as [|n IH]; intros Hlo Hhi.
  - change (Z.of_nat 0) with 0. rewrite !Z.add_0_r. lia.
  - assert (DateOrder.day_step_ok (d + Z.of_nat n) = true) as Hstep
      by (apply day_steps_ok; lia).
    unfold DateOrder.day_step_ok in Hstep.
    replace (d + Z.of_nat (S n)) with (d + Z.of_nat n + 1) by lia.
    destruct (civil_from_days (d + Z.of_nat n)) as [[y m] dd].
    rewrite !andb_true_iff in Hstep. destruct Hstep as [_ Hlt].
    apply Z.ltb_lt in Hlt. specialize (IH Hlo ltac:(lia)). lia.
Qed.

Lemma civil_num_compare d1 d2 :
  DateOrder.first_day <= d1 < 47482 -> DateOrder.first_day <= d2 < 47482 ->
  (DateOrder.ymd_num (civil_from_days d1) ?= DateOrder.ymd_num (civil_from_days d2))
  = (d1 ?= d2).
Proof.
  intros H1 H2. destruct (Z.compare_spec d1 d2) as [-> | Hlt | Hlt].
  - apply Z.compare_refl.
  - apply Z.compare_lt_iff.
    pose proof (civil_num_grows (Z.to_nat (d2 - d1)) d1) as Hg.
    replace (d1 + Z.of_nat (Z.to_nat (d2 - d1))) with d2 in Hg by lia. lia.
  - apply Z.compare_gt_iff.
    pose proof (civil_num_grows (Z.to_nat (d1 - d2)) d2) as Hg.
    replace (d2 + Z.of_nat (Z.to_nat (d1 - d2))) with d1 in Hg by lia. lia.
Qed.

(** The date string of a day, and its order. *)
Lemma format_day_compare d1 d2 :
  DateOrder.first_day <= d1 < 47482 -> DateOrder.first_day <= d2 < 47482 ->
  String.compare
    (let '(y, m, dd) := civil_from_days d1 in format_ymd y m dd)
    (let '(y, m, dd) := civil_from_days d2 in format_ymd y m dd)
  = (d1 ?= d2).
Proof.
  intros H1 H2. rewrite <- civil_num_compare by done.
  pose proof (civil_four_digits d1 H1) as Hc1.
  pose proof (civil_four_digits d2 H2) as Hc2.
  destruct (civil_from_days d1) as [[y1 m1] dd1].
  destruct (civil_from_days d2) as [[y2 m2] dd2].
  apply format_ymd_compare; lia.
Qed.

Lemma date_order_by_day t1 t2 :
  DateOrder.first_day <= Day (london_time t1) < 47482 ->
  DateOrder.first_day <= Day (london_time t2) < 47482 ->
  Str.ge (toLocaleDateString_enCA_London (Some t1))
         (toLocaleDateString_enCA_London (Some t2)) = true
  <-> Day (london_time t2) <= Day (london_time t1).
Proof.
  intros H1 H2. unfold Str.ge, toLocaleDateString_enCA_London.
  rewrite format_day_compare by done.
  destruct (Z.compare_spec (Day (london_time t1)) (Day (london_time t2)));
    split; intros; try done; lia.
Qed.

(** X10. For instants whose London day lies in the years 1969..2099, the date
    strings of two instants compare as their London calendar days do. *)
Theorem date_order_is_day_order t1 t2 :
  DateOrder.first_day <= Day (london_time t1) < 47482 ->
  DateOrder.first_day <= Day (london_time t2) < 47482 ->
  Str.ge (toLocaleDateString_enCA_London (Some t1))
         (toLocaleDateString_enCA_London (Some t2)) = true
  <-> Day (london_time t2) <= Day (london_time t1).
Proof. apply date_order_by_day. Qed.

Lemma date_order_is_day_order_witness :
  Str.ge (toLocaleDateString_enCA_London (Some Sample.late_30_june_2024))
         (toLocaleDateString_enCA_London (Some Sample.noon_10_march_2024)) = true
  <-> Day (london_time Sample.noon_10_march_2024)
      <= Day (london_time Sample.late_30_june_2024).
Proof.
  apply (date_order_is_day_order Sample.late_30_june_2024 Sample.noon_10_march_2024);
    vm_compute; (split; [discriminate | reflexivity]).
Defined.

(** ** The threshold in other process zones *)

Lemma month_eves_1970_2099_ok y m :
  1969 <= y <= 2099 -> 1 <= m <= 12 -> DateOrder.month_eve_ok y m = true.
Proof.
  intros Hy Hm.
  assert (CalendarCheck.all_from
            (fun y => CalendarCheck.all_from (DateOrder.month_eve_ok y) 12 1) 131 1969
          = true) as Hall by vm_cast_no_check (eq_refl true).
  pose proof (all_from_spec _ _ _ y Hall) as Hyear. cbv beta in Hyear.
  apply (all_from_spec _ _ _ m (Hyear ltac:(clear - Hy; lia))). clear - Hm. lia.
Qed.

Lemma prev_month_bounds y m :
  1970 <= y <= 2099 -> 1 <= m <= 12 ->
  1969 <= (DateOrder.prev_month y m).1 <= 2099
  /\ 1 <= (DateOrder.prev_month y m).2 <= 12.
Proof.
  intros Hy Hm. unfold DateOrder.prev_month.
  destruct (Z.eqb_spec m 1); cbn [fst snd]; lia.
Qed.

(** [new Date(y, m - 2, 1)] in a process zone of offset [tza], for a civil
    month [m] of 1..12: the local midnight that starts the month before. *)
Lemma new_Date_prev_month tza y m :
  1970 <= y <= 2099 -> 1 <= m <= 12 ->
  - 50400000 <= tza <= 50400000 ->
  new_Date_ymd tza y (m - 1 - 1) 1
  = Some (MakeDate (days_from_civil (DateOrder.prev_month y m).1
                                    (DateOrder.prev_month y m).2 1)
                   (MakeTime 0 0 0 0) - tza).
Proof.
  intros Hy Hm Htza. unfold new_Date_ymd.
  replace ((0 <=? y) && (y <=? 99)) with false by (symmetry; apply andb_false_iff; lia).
  unfold MakeDay.
  assert (y + (m - 1 - 1) / 12 = (DateOrder.prev_month y m).1
          /\ (m - 1 - 1) mod 12 + 1 = (DateOrder.prev_month y m).2) as [-> ->].
  { unfold DateOrder.prev_month.
    destruct (Z.eqb_spec m 1) as [-> | Hne]; cbn [fst snd].
    - change ((1 - 1 - 1) / 12) with (-1). change ((1 - 1 - 1) mod 12) with 11. lia.
    - rewrite Z.div_small, Z.mod_small by lia. lia. }
  destruct (prev_month_bounds y m Hy Hm) as [Hy' Hm'].
  pose proof (months_1969_2099_ok _ _ Hy' Hm') as Hok.
  unfold CalendarCheck.month_ok in Hok.
  destruct (civil_from_days (days_from_civil _ _ 1)) as [[y2 m2] d2].
  rewrite !andb_true_iff in Hok. destruct Hok as [[_ Hlo] Hhi].
  unfold UTC, TimeClip. cbn [offset_at_local fixed_offset].
  replace (days_from_civil _ _ 1 + 1 - 1)
    with (days_from_civil (DateOrder.prev_month y m).1 (DateOrder.prev_month y m).2 1)
    by lia.
  replace (Z.abs _ <=? _) with true; [done|].
  symmetry. apply Z.leb_le.
  unfold MakeDate, MakeTime, msPerDay, msPerHour, msPerMinute, msPerSecond. lia.
Qed.

(** The local date of [now] in a process zone, for local times of the years
    1970..2099. *)
Lemma local_month_bounds tza now :
  0 <= now + tza < CalendarCheck.start_of_2100 ->
  1970 <= getFullYear tza now <= 2099 /\ 1 <= getMonth tza now + 1 <= 12.
Proof.
  intros Hnow. unfold getFullYear, getMonth, LocalTime, YearFromTime, MonthFromTime.
  cbn [offset_at_utc fixed_offset].
  assert (0 <= Day (now + tza) < 47482) as Hday.
  { unfold Day, msPerDay, CalendarCheck.start_of_2100 in *.
    Z.div_mod_to_equations; lia. }
  pose proof (days_1970_2099_ok _ Hday) as Hok. unfold CalendarCheck.day_ok in Hok.
  destruct (civil_from_days (Day (now + tza))) as [[y m] d]. cbn [fst snd].
  rewrite !andb_true_iff in Hok. lia.
Qed.

(** The London day of an instant at most twelve hours after a UTC midnight
    is that day; at most fourteen hours and more than one hour before it, it
    is the day before. *)
Lemma Day_london_after_midnight d delta :
  0 <= delta <= 43200000 ->
  Day (london_time (MakeDate d (MakeTime 0 0 0 0) + delta)) = d.
Proof.
  intros Hdelta. unfold london_time.
  destruct (london_offset_cases (MakeDate d (MakeTime 0 0 0 0) + delta)) as [-> | ->];
    unfold Day, MakeDate, MakeTime, msPerDay, msPerHour, msPerMinute, msPerSecond;
    Z.div_mod_to_equations; lia.
Qed.

Lemma Day_london_before_midnight d delta :
  3600000 < delta <= 50400000 ->
  Day (london_time (MakeDate d (MakeTime 0 0 0 0) - delta)) = d - 1.
Proof.
  intros Hdelta. unfold london_time.
  destruct (london_offset_cases (MakeDate d (MakeTime 0 0 0 0) - delta)) as [-> | ->];
    unfold Day, MakeDate, MakeTime, msPerDay, msPerHour, msPerMinute, msPerSecond;
    Z.div_mod_to_equations; lia.
Qed.

Lemma prevMonthStart_west tza now :
  - 43200000 <= tza <= 0 ->
  0 <= now + tza < CalendarCheck.start_of_2100 ->
  prevMonthStart tza now
  = let '(y', m') := DateOrder.prev_month (getFullYear tza now) (getMonth tza now + 1) in
    format_ymd y' m' 1.
Proof.
  intros Htza Hnow. unfold prevMonthStart.
  destruct (local_month_bounds tza now Hnow) as [Hy Hm].
  replace (getMonth tza now - 1) with (getMonth tza now + 1 - 1 - 1) by lia.
  rewrite new_Date_prev_month by lia.
  destruct (prev_month_bounds _ _ Hy Hm) as [Hy' Hm'].
  destruct (DateOrder.prev_month (getFullYear tza now) (getMonth tza now + 1))
    as [y' m']. cbn [fst snd] in *.
  unfold toLocaleDateString_enCA_London.
  replace (MakeDate (days_from_civil y' m' 1) (MakeTime 0 0 0 0) - tza)
    with (MakeDate (days_from_civil y' m' 1) (MakeTime 0 0 0 0) + - tza) by lia.
  rewrite Day_london_after_midnight by lia.
  pose proof (months_1969_2099_ok _ _ Hy' Hm') as Hok.
  unfold CalendarCheck.month_ok in Hok.
  destruct (civil_from_days (days_from_civil y' m' 1)) as [[y2 m2] d2].
  rewrite !andb_true_iff in Hok. destruct Hok as [[[[Hy2 Hm2] Hd2] _] _].
  apply Z.eqb_eq in Hy2, Hm2, Hd2. by subst.
Qed.

(** [new Date(y, m - 2, 1)] in any process zone whose offsets are within
    fourteen hours of UTC: the local midnight that starts the month before,
    read at the zone's offset for that local time. *)
Lemma new_Date_prev_month_in (zone : TimeZone) y m :
  1970 <= y <= 2099 -> 1 <= m <= 12 ->
  - 50400000
  <= offset_at_local zone
       (MakeDate (days_from_civil (DateOrder.prev_month y m).1
                                  (DateOrder.prev_month y m).2 1) (MakeTime 0 0 0 0))
  <= 50400000 ->
  new_Date_ymd zone y (m - 1 - 1) 1
  = Some (UTC zone (MakeDate (days_from_civil (DateOrder.prev_month y m).1
                                              (DateOrder.prev_month y m).2 1)
                             (MakeTime 0 0 0 0))).
Proof.
  intros Hy Hm. unfold new_Date_ymd.
  replace ((0 <=? y) && (y <=? 99)) with false by (symmetry; apply andb_false_iff; lia).
  unfold MakeDay.
  assert (y + (m - 1 - 1) / 12 = (DateOrder.prev_month y m).1
          /\ (m - 1 - 1) mod 12 + 1 = (DateOrder.prev_month y m).2) as [-> ->].
  { unfold DateOrder.prev_month.
    destruct (Z.eqb_spec m 1) as [-> | Hne]; cbn [fst snd].
    - change ((1 - 1 - 1) / 12) with (-1). change ((1 - 1 - 1) mod 12) with 11. lia.
    - rewrite Z.div_small, Z.mod_small by lia. lia. }
  destruct (prev_month_bounds y m Hy Hm) as [Hy' Hm'].
  pose proof (months_1969_2099_ok _ _ Hy' Hm') as Hok.
  unfold CalendarCheck.month_ok in Hok.
  destruct (civil_from_days (days_from_civil _ _ 1)) as [[y2 m2] d2].
  rewrite !andb_true_iff in Hok. destruct Hok as [[_ Hlo] Hhi].
  replace (days_from_civil _ _ 1 + 1 - 1)
    with (days_from_civil (DateOrder.prev_month y m).1 (DateOrder.prev_month y m).2 1)
    by lia.
  intros Hoff. unfold UTC, TimeClip.
  replace (Z.abs _ <=? _) with true; [done|].
  symmetry. apply Z.leb_le. revert Hoff.
  unfold MakeDate, MakeTime, msPerDay, msPerHour, msPerMinute, msPerSecond. lia.
Qed.

(** The London day of London's own midnight is that day, in winter and in
    summer. *)
Lemma Day_london_local_midnight d :
  Day (london_time (UTC london_zone (MakeDate d (MakeTime 0 0 0 0)))) = d.
Proof.
  unfold UTC. cbn [offset_at_local london_zone].
  set (M := MakeDate d (MakeTime 0 0 0 0)).
  destruct (london_offset_cases (M - msPerHour)) as [Hoff | Hoff]; rewrite Hoff.
  - rewrite Z.sub_0_r. apply Day_london_midnight.
  - unfold london_time. rewrite Hoff. subst M.
    unfold Day, MakeDate, MakeTime, msPerDay, msPerHour, msPerMinute, msPerSecond.
    Z.div_mod_to_equations; lia.
Qed.

(** A process whose own zone is [Europe/London] computes the threshold the
    specification words, at every London time of the years 1970..2099: the
    two disagree only through the zone of the process. *)
Lemma prevMonthStart_london_zone now :
  0 <= london_time now < CalendarCheck.start_of_2100 ->
  prevMonthStart london_zone now = london_prev_month_start now.
Proof.
  intros Hnow. unfold prevMonthStart, london_prev_month_start.
  unfold getFullYear, getMonth, LocalTime, YearFromTime, MonthFromTime.
  cbn [offset_at_utc london_zone]. fold (london_time now).
  assert (0 <= Day (london_time now) < 47482) as Hday.
  { unfold Day, msPerDay, CalendarCheck.start_of_2100 in *.
    Z.div_mod_to_equations; lia. }
  pose proof (days_1970_2099_ok _ Hday) as Hok. unfold CalendarCheck.day_ok in Hok.
  destruct (civil_from_days (Day (london_time now))) as [[y m] d]. cbn [fst snd].
  rewrite !andb_true_iff in Hok.
  destruct Hok as [[[[[[Hy1 Hy2] Hm1] Hm2] _] _] _].
  assert (1970 <= y <= 2099 /\ 1 <= m <= 12) as [Hy Hm] by lia.
  rewrite new_Date_prev_month_in; [|done|done|].
  2:{ cbn [offset_at_local london_zone].
      destruct (london_offset_cases
                  (MakeDate (days_from_civil (DateOrder.prev_month y m).1
                                             (DateOrder.prev_month y m).2 1)
                            (MakeTime 0 0 0 0) - msPerHour)) as [-> | ->];
        unfold msPerHour; lia. }
  unfold toLocaleDateString_enCA_London. rewrite Day_london_local_midnight.
  destruct (prev_month_bounds y m Hy Hm) as [Hy' Hm'].
  pose proof (months_1969_2099_ok _ _ Hy' Hm') as Hmok.
  unfold CalendarCheck.month_ok in Hmok.
  unfold DateOrder.prev_month in *.
  destruct (civil_from_days (days_from_civil _ _ 1)) as [[y2 m2] d2].
  rewrite !andb_true_iff in Hmok.
  destruct Hmok as [[[[Ey Em] Ed] _] _].
  apply Z.eqb_eq in Ey, Em, Ed. subst y2 m2 d2.
  by destruct (m =? 1).
Qed.

(** X11. In a process zone of a fixed offset at or west of UTC (down to
    UTC-12), at every local time of the years 1970..2099, the threshold is
    the first day of the month preceding the current local month. *)
Theorem prevMonthStart_zone_at_or_west_of_utc tza now :
  - 43200000 <= tza <= 0 ->
  0 <= now + tza < CalendarCheck.start_of_2100 ->
  prevMonthStart tza now
  = let '(y', m') := DateOrder.prev_month (getFullYear tza now) (getMonth tza now + 1) in
    format_ymd y' m' 1.
Proof. apply prevMonthStart_west. Qed.

Lemma prevMonthStart_zone_at_or_west_of_utc_witness :
  prevMonthStart (- 18000000) Sample.late_30_june_2024
  = let '(y', m') :=
      DateOrder.prev_month (getFullYear (- 18000000) Sample.late_30_june_2024)
        (getMonth (- 18000000) Sample.late_30_june_2024 + 1) in
    format_ymd y' m' 1.
Proof.
  apply (prevMonthStart_zone_at_or_west_of_utc (- 18000000) Sample.late_30_june_2024);
    vm_compute; (split; first [reflexivity | discriminate]).
Defined.

(** X12. In a process zone of a fixed offset more than one hour east of UTC
    (up to UTC+14), at every local time of the years 1970..2099, the
    threshold is not a first day of a month: it is the last day (the 28th or
    later) of the month two before the current local month. *)
Theorem prevMonthStart_zone_east_of_london tza now :
  3600000 < tza <= 50400000 ->
  0 <= now + tza < CalendarCheck.start_of_2100 ->
  let '(y', m') := DateOrder.prev_month (getFullYear tza now) (getMonth tza now + 1) in
  let '(y'', m'') := DateOrder.prev_month y' m' in
  prevMonthStart tza now = format_ymd y'' m'' (days_in_month y'' m'')
  /\ 28 <= days_in_month y'' m''.
Proof.
  intros Htza Hnow. unfold prevMonthStart.
  destruct (local_month_bounds tza now Hnow) as [Hy Hm].
  replace (getMonth tza now - 1) with (getMonth tza now + 1 - 1 - 1) by lia.
  rewrite new_Date_prev_month by lia.
  destruct (prev_month_bounds _ _ Hy Hm) as [Hy' Hm'].
  destruct (DateOrder.prev_month (getFullYear tza now) (getMonth tza now + 1))
    as [y' m']. cbn [fst snd] in *.
  unfold toLocaleDateString_enCA_London.
  rewrite Day_london_before_midnight by lia.
  pose proof (month_eves_1970_2099_ok _ _ Hy' Hm') as Hok.
  unfold DateOrder.month_eve_ok in Hok.
  destruct (DateOrder.prev_month y' m') as [y'' m''].
  destruct (civil_from_days (days_from_civil y' m' 1 - 1)) as [[y2 m2] d2].
  rewrite !andb_true_iff in Hok. destruct Hok as [[[Hy2 Hm2] Hd2] Hd28].
  apply Z.eqb_eq in Hy2, Hm2, Hd2. apply Z.leb_le in Hd28. subst y2 m2.
  rewrite <- Hd2. by split.
Qed.

Lemma prevMonthStart_zone_east_of_london_witness :
  prevMonthStart 32400000 Sample.noon_10_march_2024 = format_ymd 2024 1 31
  /\ 28 <= days_in_month 2024 1.
Proof.
  apply (prevMonthStart_zone_east_of_london 32400000 Sample.noon_10_march_2024);
    vm_compute; (split; first [reflexivity | discriminate]).
Defined.

(** ** What the date filter keeps *)

(** X13. In a process zone of a fixed offset at or west of UTC, a record with
    a well-formed Start passes the date filter exactly when the London
    calendar day of its Start is on or after the first day of the month
    preceding the current local month (instants of the years 1969..2099). *)
Theorem filter_keeps_from_previous_month rt tza now record start t :
  - 43200000 <= tza <= 0 ->
  0 <= now + tza < CalendarCheck.start_of_2100 ->
  fields record !! "Start" = Some start ->
  parse_iso start = Some t ->
  DateOrder.first_day <= Day (london_time t) < 47482 ->
  Str.ge (date (transformEvent rt record)) (prevMonthStart tza now) = true
  <-> (let '(y', m') :=
         DateOrder.prev_month (getFullYear tza now) (getMonth tza now + 1) in
       days_from_civil y' m' 1 <= Day (london_time t)).
Proof.
  intros Htza Hnow Hstart Hparse Hday.
  rewrite prevMonthStart_west by done.
  destruct (local_month_bounds tza now Hnow) as [Hy Hm].
  destruct (prev_month_bounds _ _ Hy Hm) as [Hy' Hm'].
  destruct (DateOrder.prev_month (getFullYear tza now) (getMonth tza now + 1))
    as [y' m']. cbn [fst snd] in *.
  cbn [transformEvent date]. unfold formatDate.
  rewrite Hstart, (new_Date_value_parsed rt _ _ Hparse).
  unfold toLocaleDateString_enCA_London, Str.ge.
  pose proof (months_1969_2099_ok _ _ Hy' Hm') as Hok.
  unfold CalendarCheck.month_ok in Hok.
  pose proof (format_day_compare (Day (london_time t)) (days_from_civil y' m' 1) Hday)
    as Hcmp.
  destruct (civil_from_days (days_from_civil y' m' 1)) as [[y2 m2] d2].
  rewrite !andb_true_iff in Hok. destruct Hok as [[[[Hy2 Hm2] Hd2] Hlo] Hhi].
  apply Z.eqb_eq in Hy2, Hm2, Hd2. apply Z.leb_le in Hlo. apply Z.ltb_lt in Hhi.
  subst y2 m2 d2. rewrite Hcmp by (unfold DateOrder.first_day; lia).
  destruct (Z.compare_spec (Day (london_time t)) (days_from_civil y' m' 1));
    split; intros; try done; lia.
Qed.

Lemma filter_keeps_from_previous_month_witness :
  Str.ge (date (transformEvent Sample.runtime Sample.evening_show))
         (prevMonthStart 0 Sample.noon_10_march_2024) = true
  <-> (let '(y', m') :=
         DateOrder.prev_month (getFullYear 0 Sample.noon_10_march_2024)
           (getMonth 0 Sample.noon_10_march_2024 + 1) in
       days_from_civil y' m' 1 <= Day (london_time 1710531000000)).
Proof.
  apply (filter_keeps_from_previous_month Sample.runtime 0 Sample.noon_10_march_2024
           Sample.evening_show "2024-03-15T19:30:00.000Z" 1710531000000);
    try (vm_compute; reflexivity);
    vm_compute; (split; first [reflexivity | discriminate]).
Defined.

(** ** The order of the output *)

(** Every return of London to UTC is at 01:00 or 02:00 UTC. *)
Lemma summer_end_hour y :
  exists E k, summer_end y = E * msPerDay + k /\ msPerHour <= k <= 2 * msPerHour.
Proof.
  unfold summer_end, bst_end, MakeDate.
  repeat destruct (_ <=? _); eexists _, _; (split; [reflexivity|]);
    unfold msPerHour; lia.
Qed.

(** The London calendar day never goes back as time goes on, the ends of
    British Standard Time and of summer time included. *)
Lemma Day_london_mono t1 t2 :
  t1 <= t2 -> Day (london_time t1) <= Day (london_time t2).
Proof.
  intros Hle.
  assert (Day t1 <= Day t2) as Hdays
    by (unfold Day, msPerDay; Z.div_mod_to_equations; lia).
  destruct (decide (Day t1 = Day t2)) as [Hsame | Hdiff].
  - unfold london_time, london_offset, YearFromTime. rewrite <- Hsame.
    set (y := (civil_from_days (Day t1)).1.1).
    destruct (summer_end_hour y) as (E & k & -> & Hk).
    generalize (summer_start y). intros S.
    change british_standard_time_end with (668 * msPerDay + 2 * msPerHour).
    destruct (t1 <? 668 * msPerDay + 2 * msPerHour) eqn:Hp1,
      (t2 <? 668 * msPerDay + 2 * msPerHour) eqn:Hp2,
      (S <=? t1) eqn:Hs1, (t1 <? E * msPerDay + k) eqn:He1,
      (S <=? t2) eqn:Hs2, (t2 <? E * msPerDay + k) eqn:He2;
      cbn [andb];
      rewrite ?Z.leb_le, ?Z.leb_gt, ?Z.ltb_lt, ?Z.ltb_ge in *;
      revert Hsame; unfold Day, msPerDay, msPerHour in *;
      Z.div_mod_to_equations; lia.
  - unfold london_time.
    destruct (london_offset_cases t1) as [-> | ->],
      (london_offset_cases t2) as [-> | ->];
      revert Hdays Hdiff; unfold Day, msPerDay, msPerHour;
      Z.div_mod_to_equations; lia.
Qed.

Lemma transformEvent_date_ascending rt a b :
  start_ascending a b -> date_ascending (transformEvent rt a) (transformEvent rt b).
Proof.
  intros (ta & tb & Ha & Hb & Hle & Hra & Hrb).
  unfold date_ascending. cbn [transformEvent date]. unfold formatDate.
  unfold start_instant in Ha, Hb.
  destruct (fields a !! "Start") as [sa|]; [|done].
  destruct (fields b !! "Start") as [sb|]; [|done].
  rewrite (new_Date_value_parsed rt _ _ Ha), (new_Date_value_parsed rt _ _ Hb).
  apply Is_true_true, date_order_by_day; [done | done |].
  by apply Day_london_mono.
Qed.

(** X14. The remote sort carries over to the output. When the fetched records are
    in ascending order of well-formed Starts, the events that pass the date
    filter are in ascending order of their date strings. *)
Theorem output_in_ascending_date_order rt threshold records :
  StronglySorted start_ascending records ->
  StronglySorted date_ascending
    (recentAndFutureEvents threshold (map (transformEvent rt) records)).
Proof.
  intros Hsorted.
  apply (StronglySorted_sublist _ (map (transformEvent rt) records)).
  - unfold recentAndFutureEvents. apply sublist_filter.
  - by apply (StronglySorted_fmap _ start_ascending date_ascending _
                (transformEvent_date_ascending rt)).
Qed.

Lemma output_in_ascending_date_order_witness :
  StronglySorted date_ascending
    (recentAndFutureEvents "2024-02-01"
       (map (transformEvent Sample.runtime)
          [Endpoints.old_show; Sample.evening_show; Sample.summer_jam])).
Proof.
  apply (output_in_ascending_date_order Sample.runtime "2024-02-01").
  repeat match goal with
         | |- StronglySorted _ _ => constructor
         | |- Forall _ _ => constructor
         | |- start_ascending _ _ =>
             eexists; eexists;
             (split; [vm_compute; reflexivity|]);
             (split; [vm_compute; reflexivity|]);
             vm_compute; repeat split; first [reflexivity | discriminate]
         end.
Defined.

(** ** The shape of dates and times *)

(** X15. For a record whose Start is well formed and falls in the years
    1969..2099 (London time), the date is ten characters, a zero-padded
    four-digit year, two-digit month and two-digit day joined by hyphens;
    without an End, the time is five characters, a two-digit hour below 24
    and a two-digit minute below 60 joined by a colon. *)
Theorem transformEvent_date_time_shape rt record start t :
  fields record !! "Start" = Some start ->
  parse_iso start = Some t ->
  DateOrder.first_day <= Day (london_time t) < 47482 ->
  (exists y m d,
     1000 <= y <= 9999 /\ 1 <= m <= 12 /\ 1 <= d <= 31
     /\ date (transformEvent rt record)
        = Str.pad2 (y / 100) +:+ Str.pad2 (y mod 100) +:+ "-"
          +:+ Str.pad2 m +:+ "-" +:+ Str.pad2 d)
  /\ String.length (date (transformEvent rt record)) = 10%nat
  /\ (Js.truthy (fields record !! "End") = false ->
      (exists h mi,
         0 <= h <= 23 /\ 0 <= mi <= 59
         /\ time (transformEvent rt record) = Str.pad2 h +:+ ":" +:+ Str.pad2 mi)
      /\ String.length (time (transformEvent rt record)) = 5%nat).
Proof.
  intros Hstart Hparse Hday.
  cbn [transformEvent date time]. unfold formatDate, formatTime.
  rewrite Hstart. rewrite (new_Date_value_parsed rt _ _ Hparse).
  unfold toLocaleDateString_enCA_London, toLocaleTimeString_enGB_London.
  pose proof (civil_four_digits _ Hday) as Hciv.
  destruct (civil_from_days (Day (london_time t))) as [[y m] d].
  assert (format_ymd y m d
          = Str.pad2 (y / 100) +:+ Str.pad2 (y mod 100) +:+ "-"
            +:+ Str.pad2 m +:+ "-" +:+ Str.pad2 d) as ->.
  { unfold format_ymd, year_of_era.
    replace (y >? 0) with true by (symmetry; apply Z.gtb_lt; lia).
    rewrite decimal_four_digits by lia. by rewrite append_assoc_str. }
  split; [exists y, m, d; by repeat split; try lia|].
  split; [reflexivity|].
  intros ->. cbn [negb]. split; [|reflexivity].
  exists (HourFromTime (london_time t)), (MinFromTime (london_time t)).
  split; [unfold HourFromTime; pose proof (Z.mod_pos_bound (london_time t / msPerHour) 24); lia|].
  split; [unfold MinFromTime; pose proof (Z.mod_pos_bound (london_time t / msPerMinute) 60); lia|].
  reflexivity.
Qed.

Lemma transformEvent_date_time_shape_witness :
  String.length (date (transformEvent Sample.runtime Sample.summer_jam)) = 10%nat
  /\ String.length (time (transformEvent Sample.runtime Sample.summer_jam)) = 5%nat.
Proof.
  destruct (transformEvent_date_time_shape Sample.runtime Sample.summer_jam
              "2024-07-01T18:00:00.000Z" 1719856800000) as (_ & Hdate & Htime).
  - reflexivity.
  - vm_compute. reflexivity.
  - vm_compute. split; [discriminate | reflexivity].
  - split; [exact Hdate|]. apply Htime. reflexivity.
Defined.

(** ** Dates and times against the characters of Start *)

Lemma digit_char_val c :
  Str.is_digit c = true ->
  Str.digit_char (Str.digit_val c) = c /\ 0 <= Str.digit_val c <= 9.
Proof.
  destruct c as [[] [] [] [] [] [] [] []]; intros H;
    try discriminate H; split; try reflexivity; vm_compute; split; discriminate.
Qed.

Lemma number_two c1 c2 v :
  Str.number [c1; c2] 0 = Some v ->
  Str.is_digit c1 = true /\ Str.is_digit c2 = true
  /\ v = 10 * Str.digit_val c1 + Str.digit_val c2.
Proof.
  cbn [Str.number]. destruct (Str.is_digit c1); [|done].
  destruct (Str.is_digit c2); [|done]. intros [= <-]. repeat split; lia.
Qed.

Lemma number_three c1 c2 c3 v :
  Str.number [c1; c2; c3] 0 = Some v ->
  Str.is_digit c1 = true /\ Str.is_digit c2 = true /\ Str.is_digit c3 = true
  /\ v = 100 * Str.digit_val c1 + 10 * Str.digit_val c2 + Str.digit_val c3.
Proof.
  cbn [Str.number]. destruct (Str.is_digit c1); [|done].
  destruct (Str.is_digit c2); [|done]. destruct (Str.is_digit c3); [|done].
  intros [= <-]. repeat split; lia.
Qed.

Lemma number_four c1 c2 c3 c4 v :
  Str.number [c1; c2; c3; c4] 0 = Some v ->
  Str.is_digit c1 = true /\ Str.is_digit c2 = true
  /\ Str.is_digit c3 = true /\ Str.is_digit c4 = true
  /\ v = 1000 * Str.digit_val c1 + 100 * Str.digit_val c2
         + 10 * Str.digit_val c3 + Str.digit_val c4.
Proof.
  cbn [Str.number]. destruct (Str.is_digit c1); [|done].
  destruct (Str.is_digit c2); [|done]. destruct (Str.is_digit c3); [|done].
  destruct (Str.is_digit c4); [|done].
  intros [= <-]. repeat split; lia.
Qed.

(** A two-digit field printed from the value of two digits is those digits. *)
Lemma pad2_of_digits c1 c2 :
  Str.is_digit c1 = true -> Str.is_digit c2 = true ->
  Str.pad2 (10 * Str.digit_val c1 + Str.digit_val c2) = String c1 (String c2 "").
Proof.
  intros H1 H2.
  destruct (digit_char_val c1 H1) as [E1 B1], (digit_char_val c2 H2) as [E2 B2].
  unfold Str.pad2.
  replace ((10 * Str.digit_val c1 + Str.digit_val c2) / 10 mod 10)
    with (Str.digit_val c1) by (Z.div_mod_to_equations; lia).
  replace ((10 * Str.digit_val c1 + Str.digit_val c2) mod 10)
    with (Str.digit_val c2) by (Z.div_mod_to_equations; lia).
  by rewrite E1, E2.
Qed.

(** The parts of a well-formed Start: its characters, the numbers they spell
    and the instant they denote. *)
Lemma parse_iso_parts start t :
  parse_iso start = Some t ->
  exists y1 y2 y3 y4 m1 m2 d1 d2 h1 h2 n1 n2 s1 s2 f1 f2 f3 y m d h n sec ms,
    start = string_of_list_ascii
              [y1; y2; y3; y4; "-"; m1; m2; "-"; d1; d2; "T"; h1; h2; ":";
               n1; n2; ":"; s1; s2; "."; f1; f2; f3; "Z"]%char
    /\ Str.number [y1; y2; y3; y4] 0 = Some y
    /\ Str.number [m1; m2] 0 = Some m
    /\ Str.number [d1; d2] 0 = Some d
    /\ Str.number [h1; h2] 0 = Some h
    /\ Str.number [n1; n2] 0 = Some n
    /\ Str.number [s1; s2] 0 = Some sec
    /\ Str.number [f1; f2; f3] 0 = Some ms
    /\ 1 <= m <= 12 /\ 1 <= d <= days_in_month y m
    /\ h <= 23 /\ n <= 59 /\ sec <= 59
    /\ t = MakeDate (MakeDay y (m - 1) d) (MakeTime h n sec ms).
Proof.
  intros Hp. unfold parse_iso in Hp.
  rewrite <- (string_of_list_ascii_of_string start).
  set (l := list_ascii_of_string start) in *. clearbody l.
  do 24 (destruct l as [|? l]; [discriminate Hp|]).
  destruct l; [|discriminate Hp].
  repeat match type of Hp with
         | context [Ascii.eqb ?c ?k] =>
             let Heq := fresh "Heq" in
             destruct (Ascii.eqb_spec c k) as [Heq |];
             [rewrite ?andb_true_l in Hp; try subst c
             |cbn [andb] in Hp; cbv beta iota in Hp; discriminate Hp]
         end.
  cbv beta iota in Hp.
  repeat match type of Hp with
         | context [Str.number ?cs 0] =>
             destruct (Str.number cs 0) eqn:?; cbv beta iota in Hp;
             [|discriminate Hp]
         end.
  match type of Hp with
  | (if ?c then _ else _) = _ => destruct c eqn:Hc; [|discriminate Hp]
  end.
  rewrite !andb_true_iff, !Z.leb_le in Hc.
  unfold TimeClip in Hp.
  match type of Hp with
  | (if ?c then _ else _) = _ => destruct c; [|discriminate Hp]
  end.
  injection Hp as <-.
  do 24 eexists. split; [reflexivity|].
  repeat (split; [eassumption|]).
  repeat (split; [lia|]). reflexivity.
Qed.

(** The instant that a date and a time of day of the years 1970..2099
    denote: its UTC day, and its hour and minute after [off] more
    milliseconds, for [off] of zero or one hour and no change of day. *)
Lemma instant_fields y m d h n sec ms off :
  1970 <= y <= 2099 -> 1 <= m <= 12 -> 1 <= d <= days_in_month y m ->
  0 <= h <= 23 -> 0 <= n <= 59 -> 0 <= sec <= 59 -> 0 <= ms <= 999 ->
  off = 0 \/ (off = msPerHour /\ h <= 22) ->
  let t := MakeDate (MakeDay y (m - 1) d) (MakeTime h n sec ms) in
  civil_from_days (Day (t + off)) = (y, m, d)
  /\ HourFromTime (t + off) = h + off / msPerHour
  /\ MinFromTime (t + off) = n.
Proof.
  intros Hy Hm Hd Hh Hn Hsec Hms Hoff t. subst t.
  destruct (dates_1970_2099_ok y m d Hy Hm Hd) as [Hciv _].
  assert (MakeDay y (m - 1) d = days_from_civil y m d) as ->.
  { unfold MakeDay. rewrite Z.div_small, Z.mod_small by lia.
    rewrite (days_from_civil_day y m d).
    replace (m - 1 + 1) with m by lia. replace (y + 0) with y by lia. lia. }
  rewrite <- Hciv. clear Hciv Hy Hm Hd.
  generalize (days_from_civil y m d). intros D.
  unfold Day, HourFromTime, MinFromTime, MakeDate, MakeTime,
    msPerDay, msPerHour, msPerMinute, msPerSecond in *.
  destruct Hoff as [-> | [-> Hh22]].
  - repeat split; [f_equal|..]; Z.div_mod_to_equations; lia.
  - repeat split; [f_equal|..]; Z.div_mod_to_equations; lia.
Qed.

(** What [formatDate] and [formatTime] give for a well-formed Start of the
    years 1970..2099, [off] being London's offset at that instant. *)
Lemma start_characters rt record start t y :
  fields record !! "Start" = Some start ->
  parse_iso start = Some t ->
  Str.number (list_ascii_of_string (substring 0 4 start)) 0 = Some y ->
  1970 <= y <= 2099 ->
  forall h,
    Str.number (list_ascii_of_string (substring 11 2 start)) 0 = Some h ->
    london_offset t = 0 \/ (london_offset t = msPerHour /\ h <= 22) ->
    date (transformEvent rt record) = substring 0 10 start
    /\ (Js.truthy (fields record !! "End") = false ->
        time (transformEvent rt record)
        = Str.pad2 (h + london_offset t / msPerHour) +:+ substring 13 3 start).
Proof.
  intros Hstart Hparse Hyear Hy h Hhour Hoff.
  cbn [transformEvent date time]. unfold formatDate, formatTime.
  rewrite Hstart. rewrite (new_Date_value_parsed rt _ _ Hparse).
  unfold toLocaleDateString_enCA_London, toLocaleTimeString_enGB_London, london_time.
  destruct (parse_iso_parts start t Hparse)
    as (y1 & y2 & y3 & y4 & m1 & m2 & d1 & d2 & h1 & h2 & n1 & n2 & s1 & s2
        & f1 & f2 & f3 & y' & m & d & h' & n & sec & ms
        & -> & Hny & Hnm & Hnd & Hnh & Hnn & Hns & Hnf & Hm & Hd & Hh & Hn & Hsec & ->).
  change (Str.number [y1; y2; y3; y4] 0 = Some y) in Hyear.
  change (Str.number [h1; h2] 0 = Some h) in Hhour.
  assert (y' = y) as -> by congruence. assert (h' = h) as -> by congruence.
  clear Hyear Hhour.
  apply number_four in Hny as (Dy1 & Dy2 & Dy3 & Dy4 & Ey).
  apply number_two in Hnm as (Dm1 & Dm2 & Em).
  apply number_two in Hnd as (Dd1 & Dd2 & Ed).
  apply number_two in Hnh as (Dh1 & Dh2 & Eh).
  apply number_two in Hnn as (Dn1 & Dn2 & En).
  apply number_two in Hns as (Ds1 & Ds2 & Es).
  apply number_three in Hnf as (Df1 & Df2 & Df3 & Ef).
  pose proof (digit_char_val _ Dy1) as [_ By1]. pose proof (digit_char_val _ Dy2) as [_ By2].
  pose proof (digit_char_val _ Dy3) as [_ By3]. pose proof (digit_char_val _ Dy4) as [_ By4].
  pose proof (digit_char_val _ Dh1) as [_ Bh1]. pose proof (digit_char_val _ Dh2) as [_ Bh2].
  pose proof (digit_char_val _ Dn1) as [_ Bn1]. pose proof (digit_char_val _ Dn2) as [_ Bn2].
  pose proof (digit_char_val _ Ds1) as [_ Bs1]. pose proof (digit_char_val _ Ds2) as [_ Bs2].
  pose proof (digit_char_val _ Df1) as [_ Bf1]. pose proof (digit_char_val _ Df2) as [_ Bf2].
  pose proof (digit_char_val _ Df3) as [_ Bf3].
  destruct (instant_fields y m d h n sec ms
              (london_offset (MakeDate (MakeDay y (m - 1) d) (MakeTime h n sec ms))))
    as (Hciv & Hhr & Hmin); try lia; try exact Hoff.
  rewrite Hciv, Hhr, Hmin.
  assert (format_ymd y m d
          = string_of_list_ascii [y1; y2; y3; y4; "-"; m1; m2; "-"; d1; d2]%char) as ->.
  { unfold format_ymd, year_of_era.
    replace (y >? 0) with true by (symmetry; apply Z.gtb_lt; lia).
    rewrite decimal_four_digits by lia.
    replace (y / 100) with (10 * Str.digit_val y1 + Str.digit_val y2)
      by (rewrite Ey; Z.div_mod_to_equations; lia).
    replace (y mod 100) with (10 * Str.digit_val y3 + Str.digit_val y4)
      by (rewrite Ey; Z.div_mod_to_equations; lia).
    rewrite Em, Ed. by rewrite !pad2_of_digits. }
  split; [reflexivity|].
  intros ->. cbn [negb].
  rewrite En. by rewrite (pad2_of_digits n1 n2).
Qed.

(** X16. Outside summer time the exported date and time are characters of the
    record's Start. For a well-formed Start of the years 1970..2099 at which
    London is on UTC, the date is the first ten characters of Start and,
    without an End, the time is its characters 11 to 15 (hour, colon,
    minute). *)
Theorem winter_date_and_time_are_Start_characters rt record start t y :
  fields record !! "Start" = Some start ->
  parse_iso start = Some t ->
  Str.number (list_ascii_of_string (substring 0 4 start)) 0 = Some y ->
  1970 <= y <= 2099 ->
  london_offset t = 0 ->
  date (transformEvent rt record) = substring 0 10 start
  /\ (Js.truthy (fields record !! "End") = false ->
      time (transformEvent rt record) = substring 11 5 start).
Proof.
  intros Hstart Hparse Hyear Hy Hoff.
  destruct (parse_iso_parts start t Hparse)
    as (y1 & y2 & y3 & y4 & m1 & m2 & d1 & d2 & h1 & h2 & n1 & n2 & s1 & s2
        & f1 & f2 & f3 & y' & m & d & h & n & sec & ms
        & Estart & _ & _ & _ & Hnh & _).
  assert (Str.number (list_ascii_of_string (substring 11 2 start)) 0 = Some h) as Hhour
    by (rewrite Estart; exact Hnh).
  destruct (start_characters rt record start t y Hstart Hparse Hyear Hy h Hhour
              (or_introl Hoff)) as [Hdate Htime].
  split; [exact Hdate|]. intros Hend. rewrite (Htime Hend), Hoff.
  apply number_two in Hnh as (Dh1 & Dh2 & ->).
  change (0 / msPerHour) with 0. rewrite Z.add_0_r, pad2_of_digits by done.
  by rewrite Estart.
Qed.

Lemma winter_date_and_time_are_Start_characters_witness :
  (date (transformEvent Sample.runtime Sample.empty_type) = "2024-03-15"
   /\ time (transformEvent Sample.runtime Sample.empty_type) = "19:30")
  /\ (date (transformEvent Sample.runtime october_1995_show) = "1995-10-25"
      /\ time (transformEvent Sample.runtime october_1995_show) = "12:00").
Proof.
  split.
  - destruct (winter_date_and_time_are_Start_characters Sample.runtime Sample.empty_type
                "2024-03-15T19:30:00.000Z" 1710531000000 2024) as [Hdate Htime].
    + reflexivity.
    + vm_compute. reflexivity.
    + reflexivity.
    + lia.
    + vm_compute. reflexivity.
    + split; [exact Hdate | apply Htime; reflexivity].
  - destruct (winter_date_and_time_are_Start_characters Sample.runtime october_1995_show
                "1995-10-25T12:00:00.000Z" 814622400000 1995) as [Hdate Htime].
    + reflexivity.
    + vm_compute. reflexivity.
    + reflexivity.
    + lia.
    + vm_compute. reflexivity.
    + split; [exact Hdate | apply Htime; reflexivity].
Defined.

(** X17. In summer time the exported time is one hour later than the characters
    of Start. For a well-formed Start of the years 1970..2099 at which London
    is one hour ahead of UTC and whose hour is at most 22, the date is the
    first ten characters of Start and, without an End, the time is the hour
    plus one, then the colon and minute of Start. *)
Theorem summer_time_is_one_hour_after_Start rt record start t y h :
  fields record !! "Start" = Some start ->
  parse_iso start = Some t ->
  Str.number (list_ascii_of_string (substring 0 4 start)) 0 = Some y ->
  1970 <= y <= 2099 ->
  Str.number (list_ascii_of_string (substring 11 2 start)) 0 = Some h ->
  h <= 22 ->
  london_offset t = msPerHour ->
  date (transformEvent rt record) = substring 0 10 start
  /\ (Js.truthy (fields record !! "End") = false ->
      time (transformEvent rt record) = Str.pad2 (h + 1) +:+ substring 13 3 start).
Proof.
  intros Hstart Hparse Hyear Hy Hhour Hh Hoff.
  destruct (start_characters rt record start t y Hstart Hparse Hyear Hy h Hhour
              (or_intror (conj Hoff Hh))) as [Hdate Htime].
  split; [exact Hdate|]. intros Hend. by rewrite (Htime Hend), Hoff.
Qed.

Lemma summer_time_is_one_hour_after_Start_witness :
  date (transformEvent Sample.runtime Sample.summer_jam) = "2024-07-01"
  /\ time (transformEvent Sample.runtime Sample.summer_jam) = "19:00".
Proof.
  destruct (summer_time_is_one_hour_after_Start Sample.runtime Sample.summer_jam
              "2024-07-01T18:00:00.000Z" 1719856800000 2024 18) as [Hdate Htime].
  - reflexivity.
  - vm_compute. reflexivity.
  - reflexivity.
  - lia.
  - reflexivity.
  - lia.
  - vm_compute. reflexivity.
  - split; [exact Hdate | apply Htime; reflexivity].
Defined.

(** Eleven o'clock at night UTC or later, one hour on: the next day, hour
    zero. *)
Lemma instant_fields_next_day y m d n sec ms :
  1970 <= y <= 2099 -> 1 <= m <= 12 -> 1 <= d <= days_in_month y m ->
  0 <= n <= 59 -> 0 <= sec <= 59 -> 0 <= ms <= 999 ->
  let t := MakeDate (MakeDay y (m - 1) d) (MakeTime 23 n sec ms) in
  Day (t + msPerHour) = days_from_civil y m d + 1
  /\ HourFromTime (t + msPerHour) = 0
  /\ MinFromTime (t + msPerHour) = n.
Proof.
  intros Hy Hm Hd Hn Hsec Hms t. subst t.
  assert (MakeDay y (m - 1) d = days_from_civil y m d) as ->.
  { unfold MakeDay. rewrite Z.div_small, Z.mod_small by lia.
    rewrite (days_from_civil_day y m d).
    replace (m - 1 + 1) with m by lia. replace (y + 0) with y by lia. lia. }
  clear Hy Hm Hd. generalize (days_from_civil y m d). intros D.
  unfold Day, HourFromTime, MinFromTime, MakeDate, MakeTime,
    msPerDay, msPerHour, msPerMinute, msPerSecond in *.
  repeat split; Z.div_mod_to_equations; lia.
Qed.

(** X18. A summer Start in the last hour of the UTC day is exported under the
    next day. For a well-formed Start of the years 1970..2099 whose hour is
    23 and at which London is one hour ahead of UTC, the date is that of the
    day after the date in Start (the next day of the month when there is
    one) and, without an End, the time is hour 00 with the minute of
    Start. *)
Theorem summer_last_hour_moves_to_next_day rt record start t y m d :
  fields record !! "Start" = Some start ->
  parse_iso start = Some t ->
  Str.number (list_ascii_of_string (substring 0 4 start)) 0 = Some y ->
  1970 <= y <= 2099 ->
  Str.number (list_ascii_of_string (substring 5 2 start)) 0 = Some m ->
  Str.number (list_ascii_of_string (substring 8 2 start)) 0 = Some d ->
  substring 11 2 start = "23" ->
  london_offset t = msPerHour ->
  date (transformEvent rt record)
  = (let '(y2, m2, d2) := civil_from_days (days_from_civil y m d + 1) in
     format_ymd y2 m2 d2)
  /\ (d < days_in_month y m -> date (transformEvent rt record) = format_ymd y m (d + 1))
  /\ (Js.truthy (fields record !! "End") = false ->
      time (transformEvent rt record) = "00" +:+ substring 13 3 start).
Proof.
  intros Hstart Hparse Hyear Hy Hmonth Hday Hhour Hoff.
  cbn [transformEvent date time]. unfold formatDate, formatTime.
  rewrite Hstart. rewrite (new_Date_value_parsed rt _ _ Hparse).
  unfold toLocaleDateString_enCA_London, toLocaleTimeString_enGB_London, london_time.
  rewrite Hoff. clear Hoff.
  destruct (parse_iso_parts start t Hparse)
    as (y1 & y2 & y3 & y4 & m1 & m2 & d1 & d2 & h1 & h2 & n1 & n2 & s1 & s2
        & f1 & f2 & f3 & y' & m' & d' & h & n & sec & ms
        & -> & Hny & Hnm & Hnd & Hnh & Hnn & Hns & Hnf & Hm & Hd & Hh & Hn & Hsec & ->).
  change (Str.number [y1; y2; y3; y4] 0 = Some y) in Hyear.
  change (Str.number [m1; m2] 0 = Some m) in Hmonth.
  change (Str.number [d1; d2] 0 = Some d) in Hday.
  change (String h1 (String h2 "") = "23") in Hhour.
  injection Hhour as -> ->.
  assert (y' = y) as -> by congruence. assert (m' = m) as -> by congruence.
  assert (d' = d) as -> by congruence.
  assert (h = 23) as -> by (vm_compute in Hnh; congruence).
  clear Hyear Hmonth Hday Hnh.
  apply number_two in Hnn as (Dn1 & Dn2 & En).
  apply number_two in Hns as (Ds1 & Ds2 & Es).
  apply number_three in Hnf as (Df1 & Df2 & Df3 & Ef).
  pose proof (digit_char_val _ Dn1) as [_ Bn1]. pose proof (digit_char_val _ Dn2) as [_ Bn2].
  pose proof (digit_char_val _ Ds1) as [_ Bs1]. pose proof (digit_char_val _ Ds2) as [_ Bs2].
  pose proof (digit_char_val _ Df1) as [_ Bf1]. pose proof (digit_char_val _ Df2) as [_ Bf2].
  pose proof (digit_char_val _ Df3) as [_ Bf3].
  destruct (instant_fields_next_day y m d n sec ms) as (Hnext & Hhr & Hmin); try lia.
  rewrite Hnext, Hhr, Hmin.
  split; [reflexivity|]. split.
  - intros Hmid.
    destruct (dates_1970_2099_ok y m (d + 1)) as [Hciv _]; try lia.
    rewrite (days_from_civil_day y m (d + 1)) in Hciv.
    rewrite (days_from_civil_day y m d).
    replace (days_from_civil y m 1 + d - 1 + 1)
      with (days_from_civil y m 1 + (d + 1) - 1) by lia.
    by rewrite Hciv.
  - intros ->. cbn [negb]. rewrite En. by rewrite (pad2_of_digits n1 n2).
Qed.

Lemma summer_last_hour_moves_to_next_day_witness :
  (date (transformEvent Sample.runtime late_summer_show) = "2024-08-01"
   /\ time (transformEvent Sample.runtime late_summer_show) = "00:30")
  /\ (date (transformEvent Sample.runtime british_standard_time_show) = "1970-01-16"
      /\ time (transformEvent Sample.runtime british_standard_time_show) = "00:30").
Proof.
  split.
  - destruct (summer_last_hour_moves_to_next_day Sample.runtime late_summer_show
                "2024-07-31T23:30:00.000Z" 1722468600000 2024 7 31)
      as (Hdate & _ & Htime).
    + reflexivity.
    + vm_compute. reflexivity.
    + reflexivity.
    + lia.
    + reflexivity.
    + reflexivity.
    + reflexivity.
    + vm_compute. reflexivity.
    + split; [exact Hdate | apply Htime; reflexivity].
  - destruct (summer_last_hour_moves_to_next_day Sample.runtime
                british_standard_time_show
                "1970-01-15T23:30:00.000Z" 1294200000 1970 1 15)
      as (_ & Hdate & Htime).
    + reflexivity.
    + vm_compute. reflexivity.
    + reflexivity.
    + lia.
    + reflexivity.
    + reflexivity.
    + reflexivity.
    + vm_compute. reflexivity.
    + split; [apply Hdate; vm_compute; reflexivity | apply Htime; reflexivity].
Defined.
